(** * SameTabOpener: the Zendesk tab-reuse coordinator of [javascripts/background.js]

    A shallow embedding of the background service worker and of the URL
    helpers it relies on, followed by the properties of the coordinator.

    Conventions of the embedding.
    - A JavaScript string is a [string] of 8-bit characters; every URL
      shape the program tests for is ASCII.
    - A regular-expression literal is a value of [RegExp], run by a
      backtracking matcher with the priorities of the JavaScript one
      (leftmost alternative first, greedy quantifiers).
    - The module-level variables of the service worker form the record
      [ExtState].  An [async] function is a resumption: it runs until its
      next [await], hands the pending host call and the current state back
      to the event loop, and is resumed with the settlement of the call on
      the state it finds then.
    - [null] and [undefined] are [None]; a rejected promise and a thrown
      exception are [Thrown].
    - The calls of [debugLogger] are left out, except the two whose
      argument can throw while it is evaluated; the logger itself is the
      module [DebugLogger].  The badge, the refresh timers and the
      message handlers do not touch the coordinator and are not
      modelled. *)

From Stdlib Require Import ZArith Ascii String Lia List Bool.
From stdpp Require Import gmap strings list.

Local Open Scope Z_scope.

(* ===================================================================== *)
(** * Part I.  Definitions *)
(* ===================================================================== *)

(** ** Strings *)

Module JsString.

(** [s.startsWith(p)], returning what follows the prefix. *)
Fixpoint strip_prefix (p s : string) : option string :=
  match p with
  | EmptyString => Some s
  | String a p' =>
      match s with
      | EmptyString => None
      | String b s' => if Ascii.eqb a b then strip_prefix p' s' else None
      end
  end.

Definition starts_with (p s : string) : bool :=
  match strip_prefix p s with Some _ => true | None => false end.

(** [s.includes(needle)]. *)
Fixpoint includes (needle s : string) : bool :=
  if starts_with needle s then true
  else match s with
       | EmptyString => false
       | String _ s' => includes needle s'
       end.

(** The longest prefix of [s] whose characters satisfy [f], and the rest. *)
Fixpoint span (f : ascii -> bool) (s : string) : string * string :=
  match s with
  | EmptyString => (EmptyString, EmptyString)
  | String a s' =>
      if f a then let '(pre, post) := span f s' in (String a pre, post)
      else (EmptyString, s)
  end.

Fixpoint all_chars (f : ascii -> bool) (s : string) : bool :=
  match s with
  | EmptyString => true
  | String a s' => f a && all_chars f s'
  end.

Fixpoint take (n : nat) (s : string) : string :=
  match n, s with
  | S n', String a s' => String a (take n' s')
  | _, _ => EmptyString
  end.

(** [s.split(sep)] for a one-character separator. *)
Fixpoint split_on (sep : ascii) (s : string) : list string :=
  match s with
  | EmptyString => [EmptyString]
  | String a s' =>
      if Ascii.eqb a sep then EmptyString :: split_on sep s'
      else match split_on sep s' with
           | [] => [String a EmptyString]
           | w :: ws => String a w :: ws
           end
  end.

(** ASCII lower-casing, as [toLowerCase] acts on the characters modelled. *)
Definition lower_ascii (a : ascii) : ascii :=
  let n := nat_of_ascii a in
  if ((65 <=? n) && (n <=? 90))%nat then ascii_of_nat (n + 32) else a.

Fixpoint to_lower (s : string) : string :=
  match s with
  | EmptyString => EmptyString
  | String a s' => String (lower_ascii a) (to_lower s')
  end.

(** Truthiness of a possibly absent string: [null], [undefined] and the
    empty string are falsy. *)
Definition truthy (o : option string) : bool :=
  match o with
  | Some (String _ _) => true
  | _ => false
  end.

(** What a template literal prints for a possibly [null] string. *)
Definition template (o : option string) : string :=
  match o with Some s => s | None => "null" end.

End JsString.

(** ** Regular expressions *)

Module Regex.
Import JsString.

Inductive charclass : Type :=
| CDigit                 (* \d    *)
| CNot (a : ascii)       (* [^a]  *)
| CAny.                  (* .     *)

Definition is_digit (a : ascii) : bool :=
  let n := nat_of_ascii a in ((48 <=? n) && (n <=? 57))%nat.

Definition is_line_terminator (a : ascii) : bool :=
  let n := nat_of_ascii a in ((n =? 10) || (n =? 13))%nat.

Definition in_class (c : charclass) (a : ascii) : bool :=
  match c with
  | CDigit => is_digit a
  | CNot b => negb (Ascii.eqb a b)
  | CAny => negb (is_line_terminator a)
  end.

Inductive regex : Type :=
| REps
| RLit (s : string)                 (* a literal run of characters *)
| RLitI (s : string)                (* the same under the [i] flag; [s] in lower case *)
| RCat (r1 r2 : regex)
| RAlt (r1 r2 : regex)              (* r1|r2 *)
| ROpt (r : regex)                  (* r?    *)
| RStar (c : charclass)             (* c*    *)
| RPlus (c : charclass)             (* c+    *)
| RGroup (i : nat) (r : regex)      (* the i-th capturing group *)
| RNoGroup (r : regex)              (* (?:r) *)
| REnd.                             (* $     *)

Fixpoint rseq (l : list regex) : regex :=
  match l with
  | [] => REps
  | [r] => r
  | r :: l' => RCat r (rseq l')
  end.

(** A regular-expression literal: [re_anchored] records a leading [^]. *)
Record RegExp : Type := { re_anchored : bool; re_body : regex }.

(** Captures, most recent binding first. *)
Definition captures : Type := list (nat * string).

Fixpoint capture (i : nat) (cs : captures) : option string :=
  match cs with
  | [] => None
  | (j, s) :: cs' => if Nat.eqb i j then Some s else capture i cs'
  end.

(** The text between position [s] and the later position [s']. *)
Definition consumed (s s' : string) : string :=
  take (String.length s - String.length s') s.

(** A literal under the [i] flag: [p] is given in lower case. *)
Fixpoint strip_prefix_i (p s : string) : option string :=
  match p with
  | EmptyString => Some s
  | String a p' =>
      match s with
      | EmptyString => None
      | String b s' =>
          if Ascii.eqb a (lower_ascii b) then strip_prefix_i p' s' else None
      end
  end.

(** Greedy repetition of a character class with backtracking: the longest
    run is tried first, then shorter ones. *)
Fixpoint rx_star {B : Type} (f : ascii -> bool) (s : string)
    (k : string -> option B) : option B :=
  match s with
  | EmptyString => k EmptyString
  | String a s' =>
      if f a then
        match rx_star f s' k with
        | Some r => Some r
        | None => k s
        end
      else k s
  end.

(** The matcher, in continuation-passing style: [k] is what remains to be
    matched after [r]; a [None] makes the matcher backtrack. *)
Fixpoint rx (r : regex) (s : string) (cs : captures)
    (k : string -> captures -> option captures) : option captures :=
  match r with
  | REps => k s cs
  | RLit l =>
      match strip_prefix l s with
      | Some s' => k s' cs
      | None => None
      end
  | RLitI l =>
      match strip_prefix_i l s with
      | Some s' => k s' cs
      | None => None
      end
  | RCat r1 r2 => rx r1 s cs (fun s1 cs1 => rx r2 s1 cs1 k)
  | RAlt r1 r2 =>
      match rx r1 s cs k with
      | Some x => Some x
      | None => rx r2 s cs k
      end
  | ROpt r1 =>
      match rx r1 s cs k with
      | Some x => Some x
      | None => k s cs
      end
  | RStar c => rx_star (in_class c) s (fun s' => k s' cs)
  | RPlus c =>
      match s with
      | EmptyString => None
      | String a s' =>
          if in_class c a
          then rx_star (in_class c) s' (fun s'' => k s'' cs)
          else None
      end
  | RGroup i r1 => rx r1 s cs (fun s' cs' => k s' ((i, consumed s s') :: cs'))
  | RNoGroup r1 => rx r1 s cs k
  | REnd =>
      match s with
      | EmptyString => k s cs
      | String _ _ => None
      end
  end.

Definition accept (s : string) (cs : captures) : option captures := Some cs.

(** An unanchored expression is tried at every start position in turn. *)
Fixpoint rx_search (r : regex) (s : string) : option captures :=
  match rx r s [] accept with
  | Some cs => Some cs
  | None =>
      match s with
      | EmptyString => None
      | String _ s' => rx_search r s'
      end
  end.

(** [re.exec(s)] / [s.match(re)] for an expression without the [g] flag. *)
Definition exec (re : RegExp) (s : string) : option captures :=
  if re_anchored re then rx (re_body re) s [] accept
  else rx_search (re_body re) s.

(** [re.test(s)]. *)
Definition test (re : RegExp) (s : string) : bool :=
  match exec re s with Some _ => true | None => false end.

End Regex.

(** ** The URL classifier of [background.js] *)

Module Url.
Import JsString Regex.

(** [^https?:\/\/([^.]+)\.zendesk\.com] : the head shared by the routes. *)
Definition zendesk_head : list regex :=
  [ RLit "http"; ROpt (RLit "s"); RLit "://";
    RGroup 1 (RPlus (CNot ".")); RLit ".zendesk.com" ].

(** [/^https?:\/\/([^.]+)\.zendesk\.com\/agent\/(tickets|views)\/(\d+)/] *)
Definition TICKET_ROUTE : RegExp :=
  {| re_anchored := true;
     re_body := rseq (zendesk_head ++
       [ RLit "/agent/"; RGroup 2 (RAlt (RLit "tickets") (RLit "views"));
         RLit "/"; RGroup 3 (RPlus CDigit) ]) |}.

(** [/^https?:\/\/([^.]+)\.zendesk\.com\/agent\/#\/(tickets|views)\/(\d+)/] *)
Definition HASH_TICKET_ROUTE : RegExp :=
  {| re_anchored := true;
     re_body := rseq (zendesk_head ++
       [ RLit "/agent/#/"; RGroup 2 (RAlt (RLit "tickets") (RLit "views"));
         RLit "/"; RGroup 3 (RPlus CDigit) ]) |}.

(** [/^https?:\/\/([^.]+)\.zendesk\.com/], the literal of [extractSubdomain]. *)
Definition SUBDOMAIN_ROUTE : RegExp :=
  {| re_anchored := true; re_body := rseq zendesk_head |}.

(** [/^https?:\/\/statics\.teams\.cdn\.office\.net\/evergreen-assets\/safelinks/] *)
Definition TEAMS_SAFEURL : RegExp :=
  {| re_anchored := true;
     re_body := rseq
       [ RLit "http"; ROpt (RLit "s"); RLit "://";
         RLit "statics.teams.cdn.office.net/evergreen-assets/safelinks" ] |}.

(** *** The routes read from left to right

    The same routes as functions that consume the URL once, without
    backtracking.  Part II shows that they agree with the expressions
    above on every string; the proofs about the classifier go through
    them. *)

Definition non_dot (a : ascii) : bool := negb (Ascii.eqb a ".").

(** What follows [http://] or [https://]. *)
Definition scheme_rest (u : string) : option string :=
  match strip_prefix "http" u with
  | Some r1 =>
      match strip_prefix "s" r1 with
      | Some r2 => strip_prefix "://" r2
      | None => strip_prefix "://" r1
      end
  | None => None
  end.

(** The subdomain and what follows [.zendesk.com]. *)
Definition host_split (u : string) : option (string * string) :=
  match scheme_rest u with
  | Some r =>
      let '(sub, post) := span non_dot r in
      match sub with
      | EmptyString => None
      | String _ _ =>
          match strip_prefix ".zendesk.com" post with
          | Some rest => Some (sub, rest)
          | None => None
          end
      end
  | None => None
  end.

(** [(tickets|views)\/(\d+)]: the kind and the digits. *)
Definition ticket_tail (r : string) : option (string * string) :=
  let kind :=
    match strip_prefix "tickets" r with
    | Some r1 => Some ("tickets", r1)
    | None =>
        match strip_prefix "views" r with
        | Some r1 => Some ("views", r1)
        | None => None
        end
    end in
  match kind with
  | Some (k, r1) =>
      match strip_prefix "/" r1 with
      | Some r2 =>
          match fst (span is_digit r2) with
          | EmptyString => None
          | String _ _ as d => Some (k, d)
          end
      | None => None
      end
  | None => None
  end.

(** Subdomain, kind and digits of a route under the path prefix [area]. *)
Definition route_parts (area u : string) : option (string * string * string) :=
  match host_split u with
  | Some (sub, rest) =>
      match strip_prefix area rest with
      | Some r =>
          match ticket_tail r with
          | Some (k, d) => Some (sub, k, d)
          | None => None
          end
      | None => None
      end
  | None => None
  end.

Definition route_captures (p : option (string * string * string))
    : option captures :=
  match p with
  | Some (sub, k, d) => Some [(3%nat, d); (2%nat, k); (1%nat, sub)]
  | None => None
  end.

(** *** URL shapes named in the properties *)

(** The two spellings of the scheme. *)
Definition is_scheme (sch : string) : Prop :=
  sch = "http://" \/ sch = "https://".

(** A subdomain label: non-empty and without a dot. *)
Definition is_label (sub : string) : Prop :=
  sub <> "" /\ all_chars non_dot sub = true.

(** A string that does not go on with a digit. *)
Definition no_leading_digit (rest : string) : Prop :=
  forall a r, rest = String a r -> is_digit a = false.

Definition extractTicketNumber (url : string) : option string :=
  match exec TICKET_ROUTE url with
  | Some m => capture 3 m
  | None =>
      match exec HASH_TICKET_ROUTE url with
      | Some m => capture 3 m
      | None => None
      end
  end.

Definition extractSubdomain (url : string) : option string :=
  match exec SUBDOMAIN_ROUTE url with
  | Some m => capture 1 m
  | None => None
  end.

(** [url && url.includes('zendesk.com')] as a condition. *)
Definition isZendeskUrl (url : string) : bool :=
  match url with
  | EmptyString => false
  | _ => includes "zendesk.com" url
  end.

(** [TICKET_ROUTE.test(url) || HASH_TICKET_ROUTE.test(url)] *)
Definition isTicketUrl (url : string) : bool :=
  test TICKET_ROUTE url || test HASH_TICKET_ROUTE url.

(** The template literal [`${subdomain}-${ticketNumber}`]. *)
Definition navigationKey (subdomain ticketNumber : option string) : string :=
  template subdomain +:+ "-" +:+ template ticketNumber.

(** [`https://${subdomain}.zendesk.com/agent/tickets/${ticketNumber}`] *)
Definition cleanUrl (subdomain ticketNumber : string) : string :=
  "https://" +:+ subdomain +:+ ".zendesk.com/agent/tickets/" +:+ ticketNumber.

End Url.


(** ** What the host platform provides to the script *)

Module Platform.
Import JsString Regex.

(** The components of a [URL] object that the program reads. *)
Record UrlParts : Type :=
  { hostname : string; pathname : string; hash : string }.

(** The built-in functions called on URL text.  [None] stands for the
    exception the built-in raises ([TypeError] for [new URL],
    [URIError] for [decodeURIComponent]) or, for [search_param], for the
    [null] of a missing parameter. *)
Class Builtins : Type :=
  { url_parse : string -> option UrlParts;
      (* new URL(raw) *)
    search_param : string -> string -> option string;
      (* new URLSearchParams(init).get(name) *)
    decodeURIComponent : string -> option string }.

(** *** A reference implementation of the built-ins

    It follows the platform on the URLs used in the examples of this
    file: lower-case [http]/[https] URLs without credentials, port or dot
    segments, and percent escapes of ASCII characters. *)

Definition hex_value (a : ascii) : option nat :=
  let n := nat_of_ascii a in
  if ((48 <=? n) && (n <=? 57))%nat then Some (n - 48)%nat
  else if ((65 <=? n) && (n <=? 70))%nat then Some (n - 55)%nat
  else if ((97 <=? n) && (n <=? 102))%nat then Some (n - 87)%nat
  else None.

(** Percent-decoding that leaves a malformed escape in place, with [+]
    read as a space: the decoding applied to form-encoded parameters. *)
Fixpoint form_decode (s : string) : string :=
  match s with
  | EmptyString => EmptyString
  | String a s1 =>
      if Ascii.eqb a "+" then String " " (form_decode s1)
      else if Ascii.eqb a "%" then
        match s1 with
        | String h1 (String h2 s3 as s2) =>
            match hex_value h1, hex_value h2 with
            | Some x, Some y =>
                String (ascii_of_nat (16 * x + y)) (form_decode s3)
            | _, _ => String a (form_decode s1)
            end
        | _ => String a (form_decode s1)
        end
      else String a (form_decode s1)
  end.

(** Percent-decoding that rejects a malformed escape. *)
Fixpoint strict_decode (s : string) : option string :=
  match s with
  | EmptyString => Some EmptyString
  | String a s1 =>
      if Ascii.eqb a "%" then
        match s1 with
        | String h1 (String h2 s3) =>
            match hex_value h1, hex_value h2 with
            | Some x, Some y =>
                match strict_decode s3 with
                | Some r => Some (String (ascii_of_nat (16 * x + y)) r)
                | None => None
                end
            | _, _ => None
            end
        | _ => None
        end
      else
        match strict_decode s1 with
        | Some r => Some (String a r)
        | None => None
        end
  end.

Definition split_pair (piece : string) : string * string :=
  let '(name, rest) := span (fun a => negb (Ascii.eqb a "=")) piece in
  match rest with
  | String _ value => (name, value)
  | EmptyString => (name, EmptyString)
  end.

Fixpoint first_param (name : string) (pieces : list string) : option string :=
  match pieces with
  | [] => None
  | p :: ps =>
      match p with
      | EmptyString => first_param name ps
      | _ =>
          let '(n, v) := split_pair p in
          if String.eqb (form_decode n) name then Some (form_decode v)
          else first_param name ps
      end
  end.

Definition ref_search_param (init name : string) : option string :=
  let q := match init with
           | String a q' => if Ascii.eqb a "?" then q' else init
           | EmptyString => init
           end in
  first_param name (split_on "&" q).

Definition is_delim (a : ascii) : bool :=
  Ascii.eqb a "/" || Ascii.eqb a "?" || Ascii.eqb a "#".

Definition ref_url_parse (raw : string) : option UrlParts :=
  let after_scheme :=
    match strip_prefix "https://" raw with
    | Some r => Some r
    | None => strip_prefix "http://" raw
    end in
  match after_scheme with
  | None => None
  | Some r =>
      let '(host, r1) := span (fun a => negb (is_delim a)) r in
      let '(path, r2) :=
        span (fun a => negb (Ascii.eqb a "?" || Ascii.eqb a "#")) r1 in
      let '(_, frag) := span (fun a => negb (Ascii.eqb a "#")) r2 in
      match host with
      | EmptyString => None
      | _ =>
          Some {| hostname := to_lower host;
                  pathname := match path with
                              | EmptyString => "/"
                              | _ => path
                              end;
                  hash := match frag with
                          | String _ EmptyString => EmptyString
                          | _ => frag
                          end |}
      end
  end.

Definition reference : Builtins :=
  {| url_parse := ref_url_parse;
     search_param := ref_search_param;
     decodeURIComponent := strict_decode |}.

End Platform.

(** ** URL helpers that go through the built-ins *)

Module UrlHelpers.
Import JsString Regex Url Platform.

(** [/\.zendesk\.com$/i] *)
Definition ZENDESK_HOST : RegExp :=
  {| re_anchored := false; re_body := rseq [RLitI ".zendesk.com"; REnd] |}.

(** [/\/tickets\/\d+\/print/i] *)
Definition PRINT_VIEW : RegExp :=
  {| re_anchored := false;
     re_body := rseq [RLitI "/tickets/"; RPlus CDigit; RLitI "/print"] |}.

(** [RESTRICTED_ROUTE]: anchored; [https?://], group 1 any run of
    characters, [.zendesk.com/], then group 2: either [agent/], group 3
    [chat|talk|admin/voice], an optional [/] and group 4 any run of
    characters, or [tickets/], digits (possibly none) and [/print]. *)
Definition RESTRICTED_ROUTE : RegExp :=
  {| re_anchored := true;
     re_body := rseq
       [ RLit "http"; ROpt (RLit "s"); RLit "://";
         RGroup 1 (RStar CAny); RLit ".zendesk.com/";
         RGroup 2 (RAlt
           (rseq [ RLit "agent/";
                   RGroup 3 (RAlt (RLit "chat")
                               (RAlt (RLit "talk") (RLit "admin/voice")));
                   ROpt (RLit "/"); RGroup 4 (RStar CAny) ])
           (rseq [ RLit "tickets/"; RStar CDigit; RLit "/print" ])) ] |}.

Section WithBuiltins.
Context {B : Builtins}.

Definition restricted_view (p : string) : bool :=
  includes "/agent/chat" p || includes "/agent/talk" p
  || includes "/agent/voice" p || includes "/agent/admin/voice" p.

(** [isRestrictedZendeskUrl], the predicate of the V1.2 service worker
    for the URLs never to be touched: the [catch] branch is taken when
    [new URL] throws, the one call of the [try] block that can. *)
Definition isRestrictedZendeskUrl (rawUrl : string) : bool :=
  match url_parse rawUrl with
  | Some u =>
      if negb (test ZENDESK_HOST (hostname u)) then false
      else
        let p := to_lower (pathname u) in
        let h := to_lower (hash u) in
        if restricted_view p then true
        else if restricted_view h then true
        else if test PRINT_VIEW (pathname u) then true
        else false
  | None => test RESTRICTED_ROUTE rawUrl
  end.

(** [extractZendeskUrlFromTeams]: [url.split('?')[1]] is [undefined] when
    the URL has no [?], and [URLSearchParams] then has no parameter; an
    exception of [decodeURIComponent] is caught and [null] returned. *)
Definition extractZendeskUrlFromTeams (url : string) : option string :=
  if negb (test TEAMS_SAFEURL url) then None
  else
    let encodedUrl :=
      match split_on "?" url with
      | _ :: q :: _ => search_param q "url"
      | _ => None
      end in
    if truthy encodedUrl then
      match encodedUrl with
      | Some e => decodeURIComponent e
      | None => None
      end
    else None.

(** What [new URL] makes of a Teams safelink: the text is accepted, and
    the host is the one [TEAMS_SAFEURL] spells out. *)
Definition parses_safelinks (url : string) : Prop :=
  test TEAMS_SAFEURL url = true ->
  exists u, url_parse url = Some u
            /\ hostname u = "statics.teams.cdn.office.net".

End WithBuiltins.
End UrlHelpers.

(** ** The host: tabs, windows, storage, script injection, timers *)

Module Host.

Inductive JsError : Type :=
| ReferenceError
| TypeError
| RangeError
| HostError.        (* a rejected promise of a chrome.* call *)

Inductive Outcome (A : Type) : Type :=
| Returned (a : A)
| Thrown (e : JsError).
Arguments Returned {A} a.
Arguments Thrown {A} e.

(** The fields of a [chrome.tabs.Tab] that the coordinator reads.
    [lastAccessed] is absent on hosts that do not report it. *)
Record Tab : Type :=
  { tab_id : Z;
    tab_url : string;
    tab_windowId : Z;
    tab_lastAccessed : option Z }.

(** The one setting the hand-off reads from [storage.getAllSettings()]. *)
Record Settings : Type := { noReloadNavigation : bool }.

(** What the injected function reports back: [success] and [method]. *)
Record NavResult : Type := { nr_success : bool; nr_method : string }.

(** An element of the array [chrome.scripting.executeScript] resolves to;
    [ir_result] is [undefined] when the frame produced no value. *)
Record InjectionResult : Type := { ir_result : option NavResult }.

(** The asynchronous host calls the coordinator awaits. *)
Inductive Call : Type :=
| GetAllSettings                            (* storage.getAllSettings() *)
| TabsQuery (urlPattern : string)           (* chrome.tabs.query({url}) *)
| TabsActivate (tabId : Z)                  (* chrome.tabs.update(id, {active: true}) *)
| WindowsFocus (windowId : Z)               (* chrome.windows.update(id, {focused: true}) *)
| TabsNavigate (tabId : Z) (url : string)   (* chrome.tabs.update(id, {url}) *)
| ExecuteScript (tabId : Z) (arg : string)  (* chrome.scripting.executeScript, args: [arg] *)
| TabsGet (tabId : Z)                       (* chrome.tabs.get(id) *)
| TabsRemove (tabId : Z).                   (* chrome.tabs.remove(id) *)

Definition Reply (c : Call) : Type :=
  match c with
  | GetAllSettings => Settings
  | TabsQuery _ => list Tab
  | ExecuteScript _ _ => list InjectionResult
  | TabsGet _ => Tab
  | TabsActivate _ | WindowsFocus _ | TabsNavigate _ _ | TabsRemove _ => unit
  end.

(** The callbacks handed to [setTimeout]. *)
Inductive TimerTask : Type :=
| ReleaseGlobalLock                       (* isNavigating = false *)
| ReleaseNavigationKey (key : string)     (* ongoingNavigations.delete(key) *)
| CloseDuplicate (newTabId : Z)           (* close the new tab, clear its tracking *)
| ForceSourceNavigation (sourceTabId : Z) (url : string) (tabId : Z).

(** The module-level variables of [background.js], and the timers armed
    and not yet fired, as pairs of a delay in milliseconds and a callback
    in arming order. *)
Record ExtState : Type :=
  { recentNewTabs : gmap Z Z;
    navigationTabs : gset Z;
    ongoingNavigations : gset string;
    isNavigating : bool;
    timers : list (Z * TimerTask) }.

Definition initial : ExtState :=
  {| recentNewTabs := ∅; navigationTabs := ∅; ongoingNavigations := ∅;
     isNavigating := false; timers := [] |}.

(** The calls that navigate a tab: a URL update and a script injection. *)
Definition is_navigation (c : Call) : bool :=
  match c with
  | TabsNavigate _ _ | ExecuteScript _ _ => true
  | _ => false
  end.

(** *** Asynchronous functions as resumptions *)

Inductive Prog (A : Type) : Type :=
| Done (s : ExtState) (r : Outcome A)
| Await (s : ExtState) (c : Call)
    (k : Outcome (Reply c) -> ExtState -> Prog A).
Arguments Done {A} s r.
Arguments Await {A} s c k.

Definition Async (A : Type) : Type := ExtState -> Prog A.

Definition ret {A} (a : A) : Async A := fun s => Done s (Returned a).
Definition throw {A} (e : JsError) : Async A := fun s => Done s (Thrown e).

Fixpoint bindP {A B} (p : Prog A) (f : A -> Async B) : Prog B :=
  match p with
  | Done s (Returned a) => f a s
  | Done s (Thrown e) => Done s (Thrown e)
  | Await s c k => Await s c (fun r s' => bindP (k r s') f)
  end.

Definition bind {A B} (m : Async A) (f : A -> Async B) : Async B :=
  fun s => bindP (m s) f.

(** [await call]: suspend; a rejection is thrown at the resumption. *)
Definition await (c : Call) : Async (Reply c) :=
  fun s => Await s c (fun r s' => Done s' r).

Definition get_state : Async ExtState := fun s => Done s (Returned s).
Definition modify (f : ExtState -> ExtState) : Async unit :=
  fun s => Done (f s) (Returned tt).

(** A synchronous function that answers and updates the state. *)
Definition call_sync {A} (f : ExtState -> A * ExtState) : Async A :=
  fun s => Done (snd (f s)) (Returned (fst (f s))).

(** [try { m } catch (e) { h e }] *)
Fixpoint catchP {A} (p : Prog A) (h : JsError -> Async A) : Prog A :=
  match p with
  | Done s (Returned a) => Done s (Returned a)
  | Done s (Thrown e) => h e s
  | Await s c k => Await s c (fun r s' => catchP (k r s') h)
  end.

Definition try_catch {A} (m : Async A) (h : JsError -> Async A) : Async A :=
  fun s => catchP (m s) h.

(** [try { m } finally { f }]: [f] runs however [m] completes, and the
    completion of [m] stands unless [f] itself throws. *)
Fixpoint finallyP {A} (p : Prog A) (f : Async unit) : Prog A :=
  match p with
  | Done s r => bindP (f s) (fun _ s' => Done s' r)
  | Await s c k => Await s c (fun r s' => finallyP (k r s') f)
  end.

Definition try_finally {A} (m : Async A) (f : Async unit) : Async A :=
  fun s => finallyP (m s) f.

(** *** The event loop around one activation

    At the [n]-th suspension the environment settles the pending call
    with [reply n] and may have run other handlers in between, which
    changes the state by [interfere n]. *)
Definition Replies : Type := nat -> forall c : Call, Outcome (Reply c).

Record Env : Type :=
  { reply : Replies;
    interfere : nat -> ExtState -> ExtState }.

(** An environment in which no other handler runs during the activation. *)
Definition quiet (r : Replies) : Env :=
  {| reply := r; interfere := fun _ s => s |}.

Record Run (A : Type) : Type :=
  { calls : list Call; final : ExtState; outcome : Outcome A }.
Arguments calls {A} r.
Arguments final {A} r.
Arguments outcome {A} r.

(** A run that issues the calls [cs] and then goes on as [r]. *)
Definition after_calls {A} (cs : list Call) (r : Run A) : Run A :=
  {| calls := cs ++ calls r; final := final r; outcome := outcome r |}.

(** [run env n p]: the activation [p] run to completion, its first
    suspension being the [n]-th of the environment. *)
Fixpoint run {A} (env : Env) (n : nat) (p : Prog A) : Run A :=
  match p with
  | Done s r => {| calls := []; final := s; outcome := r |}
  | Await s c k =>
      after_calls [c] (run env (S n) (k (reply env n c) (interfere env n s)))
  end.

End Host.

Declare Scope async_scope.
Delimit Scope async_scope with async.
Notation "x <- m ;; k" := (Host.bind m (fun x => k))
  (at level 100, m at next level, right associativity) : async_scope.
Notation "m ;;; k" := (Host.bind m (fun _ => k))
  (at level 100, right associativity) : async_scope.

(** ** [background.js] *)

Module Background.
Import JsString Regex Url Platform UrlHelpers Host.
Local Open Scope async_scope.

Definition NEW_TAB_WINDOW_MS : Z := 5000.

(** *** State updates *)

Definition set_isNavigating (b : bool) (s : ExtState) : ExtState :=
  {| recentNewTabs := recentNewTabs s; navigationTabs := navigationTabs s;
     ongoingNavigations := ongoingNavigations s; isNavigating := b;
     timers := timers s |}.

Definition set_recentNewTabs (m : gmap Z Z) (s : ExtState) : ExtState :=
  {| recentNewTabs := m; navigationTabs := navigationTabs s;
     ongoingNavigations := ongoingNavigations s;
     isNavigating := isNavigating s; timers := timers s |}.

Definition set_navigationTabs (x : gset Z) (s : ExtState) : ExtState :=
  {| recentNewTabs := recentNewTabs s; navigationTabs := x;
     ongoingNavigations := ongoingNavigations s;
     isNavigating := isNavigating s; timers := timers s |}.

Definition set_ongoingNavigations (x : gset string) (s : ExtState) : ExtState :=
  {| recentNewTabs := recentNewTabs s; navigationTabs := navigationTabs s;
     ongoingNavigations := x; isNavigating := isNavigating s;
     timers := timers s |}.

(** [setTimeout(task, ms)] *)
Definition setTimeout (task : TimerTask) (ms : Z) (s : ExtState) : ExtState :=
  {| recentNewTabs := recentNewTabs s; navigationTabs := navigationTabs s;
     ongoingNavigations := ongoingNavigations s;
     isNavigating := isNavigating s; timers := timers s ++ [(ms, task)] |}.

(** *** Tab tracking *)

(** [markTabNew], called at time [now]. *)
Definition markTabNew (tabId now : Z) (s : ExtState) : ExtState :=
  set_recentNewTabs (<[tabId := now]> (recentNewTabs s)) s.

(** [isTabRecentlyNew], called at time [now]: the answer and the state
    after the eviction of an expired entry.  [!ts] holds of a missing
    entry and of the timestamp [0]. *)
Definition isTabRecentlyNew (tabId now : Z) (s : ExtState) : bool * ExtState :=
  if decide (tabId ∈ navigationTabs s) then (false, s)
  else
    match recentNewTabs s !! tabId with
    | None => (false, s)
    | Some ts =>
        if ts =? 0 then (false, s)
        else
          let age := now - ts in
          let isRecent := age <=? NEW_TAB_WINDOW_MS in
          if isRecent then (true, s)
          else (false, set_recentNewTabs (delete tabId (recentNewTabs s)) s)
    end.

Definition clearNavigationTab (tabId : Z) (s : ExtState) : ExtState :=
  set_recentNewTabs (delete tabId (recentNewTabs s))
    (set_navigationTabs (navigationTabs s ∖ {[tabId]}) s).

(** [tabExists] *)
Definition tabExists (tabId : Z) : Async bool :=
  try_catch
    (tab <- await (TabsGet tabId) ;; ret (tab_id tab =? tabId))
    (fun _ => ret false).

(** *** The hand-off *)

(** [allTabs.filter(tab => tab.id !== newTabId && tab.url.includes('/agent/'))] *)
Definition candidates (newTabId : Z) (allTabs : list Tab) : list Tab :=
  List.filter
    (fun tab => negb (tab_id tab =? newTabId) && includes "/agent/" (tab_url tab))
    allTabs.

(** [x.lastAccessed || 0] *)
Definition lastAccessed_or_0 (t : Tab) : Z :=
  match tab_lastAccessed t with Some x => x | None => 0 end.

(** [candidates.reduce((a, b) => (a.lastAccessed || 0) > (b.lastAccessed || 0) ? a : b)]
    on a non-empty array: the first element seeds the accumulator. *)
Definition targetTab (first : Tab) (others : list Tab) : Tab :=
  fold_left
    (fun a b => if lastAccessed_or_0 a >? lastAccessed_or_0 b then a else b)
    others first.

(** Whether [t] is a time value: a number of at most 8.64e15 in magnitude. *)
Definition valid_time (t : option Z) : bool :=
  match t with
  | Some x => (-8640000000000000 <=? x) && (x <=? 8640000000000000)
  | None => false
  end.

(** [new Date(t).toISOString()], evaluated for a log line: a
    [RangeError] unless [t] is a time value. *)
Definition toISOString (t : option Z) : Async unit :=
  if valid_time t then ret tt else throw RangeError.

(** [results[0]?.result] *)
Definition script_result (results : list InjectionResult) : option NavResult :=
  match results with
  | [] => None
  | r :: _ => ir_result r
  end.

Section WithBuiltins.
Context {B : Builtins}.

(** [new URL(url).pathname], evaluated for a log line. *)
Definition url_pathname (url : string) : Async unit :=
  match url_parse url with
  | Some _ => ret tt
  | None => throw TypeError
  end.

(** The navigation step of [reuseZendeskTab] (the [if (useNoReload)]
    statement).  In the failure branch the log of [result.logs] throws a
    [TypeError] when [result] is [undefined]; the inner [catch] receives
    it, like any rejection raised inside the inner [try]. *)
Definition navigate (useNoReload : bool) (target : Tab) (clean : string)
    : Async unit :=
  if useNoReload then
    url_pathname (tab_url target) ;;;
    try_catch
      (results <- await (ExecuteScript (tab_id target) clean) ;;
       match script_result results with
       | Some result =>
           if nr_success result then ret tt
           else await (TabsNavigate (tab_id target) clean)
       | None => throw TypeError
       end)
      (fun _ => await (TabsNavigate (tab_id target) clean))
  else await (TabsNavigate (tab_id target) clean).

(** The statements of the [try] block of [reuseZendeskTab] that follow
    the two focus calls: the comparison of the target tab's URL with the
    clean URL and what each branch does. *)
Definition after_focus (useNoReload : bool) (newTabId : Z) (key : string)
    (target : Tab) (clean : string) : Async unit :=
  if String.eqb (tab_url target) clean then
    modify (setTimeout (CloseDuplicate newTabId) 100) ;;;
    modify (fun s => set_ongoingNavigations (ongoingNavigations s ∖ {[key]}) s) ;;;
    modify (set_isNavigating false)
  else
    navigate useNoReload target clean ;;;
    modify (setTimeout (CloseDuplicate newTabId) 100) ;;;
    modify (fun s => set_ongoingNavigations (ongoingNavigations s ∖ {[key]}) s).

(** [chrome.tabs.query({ url: `*://${subdomain}.zendesk.com/*` })] *)
Definition query_pattern (subdomain : option string) : string :=
  "*://" +:+ template subdomain +:+ ".zendesk.com/*".

(** The [catch] block of [reuseZendeskTab].  It names [navigationKey], a
    [const] of the [try] block and of no enclosing scope: evaluating the
    argument of [ongoingNavigations.delete] raises a [ReferenceError]
    and the deletion is not performed. *)
Definition catch_block (error : JsError) : Async unit := throw ReferenceError.

(** [reuseZendeskTab].  Each [return] inside the [try] block ends the
    block and leaves the rest to [finally]. *)
Definition reuseZendeskTab (newTabId : Z) (ticketUrl : string) : Async unit :=
  modify (set_isNavigating true) ;;;
  modify (setTimeout ReleaseGlobalLock 3000) ;;;
  try_finally
    (try_catch
       (settings <- await GetAllSettings ;;
        let useNoReload := noReloadNavigation settings in
        let subdomain := extractSubdomain ticketUrl in
        let ticketNumber := extractTicketNumber ticketUrl in
        if negb (truthy subdomain) || negb (truthy ticketNumber) then ret tt
        else
          let key := navigationKey subdomain ticketNumber in
          s <- get_state ;;
          if decide (key ∈ ongoingNavigations s) then ret tt
          else
            modify (fun s => set_ongoingNavigations ({[key]} ∪ ongoingNavigations s) s) ;;;
            modify (setTimeout (ReleaseNavigationKey key) 5000) ;;;
            allTabs <- await (TabsQuery (query_pattern subdomain)) ;;
            match candidates newTabId allTabs with
            | [] => ret tt
            | first :: others =>
                let target := targetTab first others in
                toISOString (tab_lastAccessed target) ;;;
                let clean := cleanUrl (template subdomain) (template ticketNumber) in
                await (TabsActivate (tab_id target)) ;;;
                await (WindowsFocus (tab_windowId target)) ;;;
                after_focus useNoReload newTabId key target clean
            end)
       catch_block)
    (modify (set_isNavigating false)).

(** The key and the clean URL that an activation on [url] computes. *)
Definition key_of (url : string) : string :=
  navigationKey (extractSubdomain url) (extractTicketNumber url).

Definition clean_of (url : string) : string :=
  cleanUrl (template (extractSubdomain url)) (template (extractTicketNumber url)).

(** The state in which [reuseZendeskTab], entered in [s0], awaits the
    tabs of the subdomain: the global flag set, the lock of the key taken,
    both failsafe timers armed. *)
Definition locked (url : string) (s0 : ExtState) : ExtState :=
  setTimeout (ReleaseNavigationKey (key_of url)) 5000
    (set_ongoingNavigations ({[key_of url]} ∪ ongoingNavigations s0)
       (setTimeout ReleaseGlobalLock 3000 (set_isNavigating true s0))).

(** The replies under which an activation of [reuseZendeskTab] on
    [ticketUrl], entered in [s0], reads [settings], takes the lock and
    selects [target] among the tabs of the subdomain. *)
Record Selected (rep : Replies) (newTabId : Z) (ticketUrl : string)
    (s0 : ExtState) (settings : Settings) (target : Tab) : Prop :=
  { se_subdomain : truthy (extractSubdomain ticketUrl) = true;
    se_ticket : truthy (extractTicketNumber ticketUrl) = true;
    se_free : key_of ticketUrl ∉ ongoingNavigations s0;
    se_settings : rep 0%nat GetAllSettings = Returned settings;
    se_query : exists allTabs first others,
      rep 1%nat (TabsQuery (query_pattern (extractSubdomain ticketUrl)))
        = Returned allTabs
      /\ candidates newTabId allTabs = first :: others
      /\ target = targetTab first others }.

(** The replies under which the activation moreover focuses [target]:
    the log line on its last access does not throw and both focus calls
    are resolved.  These are the activations that reach the comparison
    of the target's URL with the clean URL. *)
Record Focused (rep : Replies) (newTabId : Z) (ticketUrl : string)
    (s0 : ExtState) (settings : Settings) (target : Tab) : Prop :=
  { fo_selected : Selected rep newTabId ticketUrl s0 settings target;
    fo_time : valid_time (tab_lastAccessed target) = true;
    fo_tab : rep 2%nat (TabsActivate (tab_id target)) = Returned tt;
    fo_window : rep 3%nat (WindowsFocus (tab_windowId target)) = Returned tt }.

(** [result && result.success], on what the injection settled with: an
    absent result and a rejection do not report a success. *)
Definition reports_success (o : Outcome (list InjectionResult)) : bool :=
  match o with
  | Returned results =>
      match script_result results with
      | Some result => nr_success result
      | None => false
      end
  | Thrown _ => false
  end.

(** *** The dispatcher *)

(** The [details] of a [webNavigation.onCompleted] or
    [onHistoryStateUpdated] event. *)
Record NavigationDetails : Type :=
  { nd_tabId : Z; nd_url : string; nd_frameId : Z }.

(** [processZendeskNavigation], entered at time [now]. *)
Definition processZendeskNavigation (now tabId : Z) (url : string) : Async unit :=
  let subdomain := extractSubdomain url in
  let ticketNumber := extractTicketNumber url in
  let key := navigationKey subdomain ticketNumber in
  s <- get_state ;;
  if decide (key ∈ ongoingNavigations s) then ret tt
  else
    isNew <- call_sync (isTabRecentlyNew tabId now) ;;
    if negb isNew then ret tt
    else reuseZendeskTab tabId url.

(** The early loop detection of [handleNavigation]: whether the handler
    returns at once. *)
Definition early_loop (url : string) (s : ExtState) : bool :=
  if isZendeskUrl url then
    let subdomain := extractSubdomain url in
    let ticketNumber := extractTicketNumber url in
    if truthy subdomain && truthy ticketNumber then
      bool_decide (navigationKey subdomain ticketNumber ∈ ongoingNavigations s)
    else false
  else false.

(** [handleNavigation], the listener of [webNavigation.onCompleted] and
    [webNavigation.onHistoryStateUpdated], entered at time [now]. *)
Definition handleNavigation (now : Z) (details : NavigationDetails) : Async unit :=
  s <- get_state ;;
  if isNavigating s then ret tt
  else if negb (nd_frameId details =? 0) then ret tt
  else if early_loop (nd_url details) s then ret tt
  else
    let teams :=
      if test TEAMS_SAFEURL (nd_url details) then
        match extractZendeskUrlFromTeams (nd_url details) with
        | Some zendeskUrl =>
            if truthy (Some zendeskUrl) && test TICKET_ROUTE zendeskUrl
            then Some zendeskUrl else None
        | None => None
        end
      else None in
    match teams with
    | Some zendeskUrl => processZendeskNavigation now (nd_tabId details) zendeskUrl
    | None =>
        if negb (isTicketUrl (nd_url details)) then ret tt
        else processZendeskNavigation now (nd_tabId details) (nd_url details)
    end.

End WithBuiltins.

(** *** The other listeners *)

(** [chrome.tabs.onCreated]: [if (tab.id) markTabNew(tab.id)]. *)
Definition onCreated (tabId now : Z) (s : ExtState) : ExtState :=
  if tabId =? 0 then s else markTabNew tabId now s.

(** [chrome.tabs.onRemoved] *)
Definition onRemoved (tabId : Z) (s : ExtState) : ExtState :=
  set_recentNewTabs (delete tabId (recentNewTabs s))
    (set_navigationTabs (navigationTabs s ∖ {[tabId]}) s).

(** The [details] of a [webNavigation.onCreatedNavigationTarget] event. *)
Record TargetDetails : Type :=
  { td_sourceTabId : Z; td_tabId : Z; td_url : string }.

(** The condition under which the listener intercepts the new tab. *)
Definition intercepts (details : TargetDetails) (s : ExtState) : bool :=
  isNavigating s
  && negb (td_sourceTabId details =? 0)
  && negb (td_tabId details =? 0)
  && truthy (Some (td_url details))
  && isTicketUrl (td_url details).

(** [chrome.webNavigation.onCreatedNavigationTarget] *)
Definition onCreatedNavigationTarget (details : TargetDetails) (s : ExtState)
    : ExtState :=
  if intercepts details s then
    set_navigationTabs ({[td_tabId details]} ∪ navigationTabs s)
      (setTimeout
         (ForceSourceNavigation (td_sourceTabId details) (td_url details)
            (td_tabId details)) 0 s)
  else if negb (td_tabId details =? 0) then
    set_navigationTabs ({[td_tabId details]} ∪ navigationTabs s) s
  else s.

(** *** The timer callbacks *)

Definition fire (task : TimerTask) : Async unit :=
  match task with
  | ReleaseGlobalLock => modify (set_isNavigating false)
  | ReleaseNavigationKey key =>
      modify (fun s => set_ongoingNavigations (ongoingNavigations s ∖ {[key]}) s)
  | CloseDuplicate newTabId =>
      exists_ <- tabExists newTabId ;;
      (if exists_ : bool then await (TabsRemove newTabId) else ret tt) ;;;
      modify (clearNavigationTab newTabId)
  | ForceSourceNavigation sourceTabId url tabId =>
      try_catch (await (TabsNavigate sourceTabId url)) (fun _ => ret tt) ;;;
      try_catch
        (exists_ <- tabExists tabId ;;
         if exists_ : bool then await (TabsRemove tabId) else ret tt)
        (fun _ => ret tt)
  end.

End Background.

(** ** Concrete tabs, replies and states used in the examples *)

Module Scenario.
Import Url Host Background.

Definition ticket_500 : string := "https://acme.zendesk.com/agent/tickets/500".

(** An open agent tab of the subdomain, on ticket 80. *)
Definition acme_ticket_80 : Tab :=
  {| tab_id := 3; tab_url := "https://acme.zendesk.com/agent/tickets/80";
     tab_windowId := 1; tab_lastAccessed := Some 900 |}.

(** The same tab when it already shows ticket 500. *)
Definition acme_ticket_500 : Tab :=
  {| tab_id := 3; tab_url := ticket_500;
     tab_windowId := 1; tab_lastAccessed := Some 900 |}.

(** The same tab on a host that does not report [lastAccessed]. *)
Definition untimed_ticket_500 : Tab :=
  {| tab_id := 3; tab_url := ticket_500;
     tab_windowId := 1; tab_lastAccessed := None |}.

(** A host on which every call succeeds: [tabs] are the tabs of the
    subdomain, [noReload] the stored setting, every tab asked for exists
    and the injected script produces no result. *)
Definition replies (tabs : list Tab) (noReload : bool) : Replies :=
  fun n c =>
    match c return Outcome (Reply c) with
    | GetAllSettings => Returned {| noReloadNavigation := noReload |}
    | TabsQuery _ => Returned tabs
    | ExecuteScript _ _ => Returned []
    | TabsGet i =>
        Returned {| tab_id := i; tab_url := ""; tab_windowId := 1;
                    tab_lastAccessed := None |}
    | TabsActivate _ | WindowsFocus _ | TabsNavigate _ _ | TabsRemove _ =>
        Returned tt
    end.

(** The same host when the target tab is closed after the query: the
    request to activate it is rejected. *)
Definition target_closed (tabs : list Tab) : Replies :=
  fun n c =>
    match c as c' return Outcome (Reply c') -> Outcome (Reply c') with
    | TabsActivate _ => fun _ => Thrown HostError
    | _ => fun r => r
    end (replies tabs false n c).

(** A main-frame navigation event. *)
Definition navigation (tabId : Z) (url : string) : NavigationDetails :=
  {| nd_tabId := tabId; nd_url := url; nd_frameId := 0 |}.

(** Tab 7 was created at time 1000. *)
Definition tab7_created : ExtState := onCreated 7 1000 initial.

(** A hand-off for ticket 500 of [acme] is in progress. *)
Definition handoff_in_progress : ExtState := locked ticket_500 tab7_created.

(** A Teams safelink wrapping [encoded] in its [url] parameter. *)
Definition safelink (encoded : string) : string :=
  "https://statics.teams.cdn.office.net/evergreen-assets/safelinks/1/atp-safelinks.html?url="
  +:+ encoded +:+ "&locale=en-us".

End Scenario.

(** ** The rest of [background.js]: the sweeper, [focusTab], [debugLogger] *)

Module Housekeeping.
Import Host Background.
Local Open Scope async_scope.

(** The calls of an activation that concern [target]: a call on a tab is on
    the tab [target], a call on a window is on its window, and no tab is
    looked up or removed. *)
Definition on_target (target : Tab) (c : Call) : bool :=
  match c with
  | GetAllSettings | TabsQuery _ => true
  | TabsActivate i | TabsNavigate i _ | ExecuteScript i _ => i =? tab_id target
  | WindowsFocus w => w =? tab_windowId target
  | TabsGet _ | TabsRemove _ => false
  end.

(** *** The sweeper armed with [setInterval(..., NEW_TAB_WINDOW_MS)] *)

(** [now - timestamp > NEW_TAB_WINDOW_MS * 2] *)
Definition expired (now timestamp : Z) : bool :=
  now - timestamp >? NEW_TAB_WINDOW_MS * 2.

(** The first loop, over [recentNewTabs.entries()]: an expired entry is
    deleted, and its tab is deleted from [navigationTabs]. *)
Definition sweep_expired (now : Z) (s : ExtState) : ExtState :=
  set_recentNewTabs
    (filter (fun e => expired now (snd e) = false) (recentNewTabs s))
    (set_navigationTabs
       (navigationTabs s
          ∖ dom (filter (fun e => expired now (snd e) = true) (recentNewTabs s)))
       s).

(** The second loop, over [navigationTabs], whose members come up in
    the order [order]: a tab that [chrome.tabs.get] rejects is deleted
    from both tables. *)
Fixpoint sweep_missing (order : list Z) : Async unit :=
  match order with
  | [] => ret tt
  | tabId :: rest =>
      try_catch
        (await (TabsGet tabId) ;;; ret tt)
        (fun _ => modify (clearNavigationTab tabId)) ;;;
      sweep_missing rest
  end.

(** The callback of the interval, entered at time [now]. *)
Definition sweeper (now : Z) (order : list Z) : Async unit :=
  modify (sweep_expired now) ;;; sweep_missing order.

(** The tabs of [order] that the host rejects, the first of them being
    asked for at the [n]-th suspension. *)
Fixpoint rejected (rep : Replies) (n : nat) (order : list Z) : list Z :=
  match order with
  | [] => []
  | tabId :: rest =>
      match rep n (TabsGet tabId) with
      | Thrown _ => tabId :: rejected rep (S n) rest
      | Returned _ => rejected rep (S n) rest
      end
  end.

(** *** [focusTab] *)

Definition focusTab (tabId windowId : Z) : Async unit :=
  try_catch
    (await (WindowsFocus windowId) ;;; await (TabsActivate tabId))
    (fun _ => ret tt).

End Housekeeping.

(** *** [debugLogger]

    The in-memory side of the logger: [log], [error], [getLogs] and
    [clearLogs].  An argument of [log] is given as the text that
    [String] or [JSON.stringify] makes of it, and the time stamp of an
    entry as the time value it is printed from. *)

Module DebugLogger.

Record LogEntry : Type := { timestamp : Z; message : string }.

Record Logger : Type := { logs : list LogEntry; debugEnabled : bool }.

Definition maxLogs : nat := 500.

(** [parts.join(sep)] *)
Fixpoint join (sep : string) (parts : list string) : string :=
  match parts with
  | [] => ""
  | [p] => p
  | p :: ps => p +:+ sep +:+ join sep ps
  end.

(** [log(...args)], called at time [now]: [push], then [shift] when the
    array has grown past [maxLogs]. *)
Definition log (now : Z) (args : list string) (l : Logger) : Logger :=
  if negb (debugEnabled l) then l
  else
    let pushed := logs l ++ [{| timestamp := now; message := join " " args |}] in
    {| logs := if (maxLogs <? length pushed)%nat then tail pushed else pushed;
       debugEnabled := debugEnabled l |}.

(** [error(...args)] *)
Definition error (now : Z) (args : list string) (l : Logger) : Logger :=
  log now ("ERROR:" :: args) l.

Definition getLogs (l : Logger) : list LogEntry := logs l.

(** [clearLogs()] *)
Definition clearLogs (now : Z) (l : Logger) : Logger :=
  let cleared := {| logs := []; debugEnabled := debugEnabled l |} in
  if debugEnabled cleared then log now ["=== LOGS CLEARED ==="] cleared
  else cleared.

(** The operations a caller can apply to the logger. *)
Inductive Op : Type :=
| OpLog (now : Z) (args : list string)
| OpError (now : Z) (args : list string)
| OpClear (now : Z).

Definition perform (l : Logger) (op : Op) : Logger :=
  match op with
  | OpLog now args => log now args l
  | OpError now args => error now args l
  | OpClear now => clearLogs now l
  end.

End DebugLogger.

(** ** The tab tracker of the earlier script ([unnamed/part_000]) *)

Module Legacy.
Import Host Background.

Definition NEW_TAB_WINDOW_MS : Z := 5000.

(** [markTabNew], called at time [now]: the tab is also recorded as a
    navigation tab. *)
Definition markTabNew (tabId now : Z) (s : ExtState) : ExtState :=
  set_navigationTabs ({[tabId]} ∪ navigationTabs s)
    (set_recentNewTabs (<[tabId := now]> (recentNewTabs s)) s).

(** [isTabRecentlyNew], called at time [now]: a navigation tab is
    treated as new. *)
Definition isTabRecentlyNew (tabId now : Z) (s : ExtState) : bool * ExtState :=
  if decide (tabId ∈ navigationTabs s) then (true, s)
  else
    match recentNewTabs s !! tabId with
    | None => (false, s)
    | Some ts =>
        if ts =? 0 then (false, s)
        else
          let age := now - ts in
          let isRecent := age <=? NEW_TAB_WINDOW_MS in
          if isRecent then (true, s)
          else (false, set_recentNewTabs (delete tabId (recentNewTabs s)) s)
    end.

Definition clearNavigationTab (tabId : Z) (s : ExtState) : ExtState :=
  set_recentNewTabs (delete tabId (recentNewTabs s))
    (set_navigationTabs (navigationTabs s ∖ {[tabId]}) s).

(** The callback of the interval of the earlier script: the same two
    loops as in [background.js]. *)
Definition sweeper (now : Z) (order : list Z) : Async unit :=
  Housekeeping.sweeper now order.

End Legacy.

(* ===================================================================== *)
(** * Part II.  Properties *)
(* ===================================================================== *)

Import JsString Regex Url Platform UrlHelpers Host Background Scenario.
Local Arguments String.append : simpl nomatch.

(** ** Strings *)

Lemma strip_prefix_app p r : strip_prefix p (p +:+ r) = Some r.
Proof. induction p as [|a p IH]; simpl; [done|]. by rewrite Ascii.eqb_refl. Qed.

Lemma strip_prefix_inv p s r : strip_prefix p s = Some r -> s = p +:+ r.
Proof.
  revert s; induction p as [|a p IH]; intros s; simpl.
  - by intros [= ->].
  - destruct s as [|b s]; [done|].
    destruct (Ascii.eqb_spec a b) as [->|]; [|done].
    intros H; by rewrite (IH _ H).
Qed.

Lemma append_empty_r s : s +:+ "" = s.
Proof. induction s; simpl; [done|]. by f_equal. Qed.

Lemma length_append s t :
  String.length (s +:+ t) = (String.length s + String.length t)%nat.
Proof. induction s; simpl; [done|]. by f_equal. Qed.

Lemma take_app s t : take (String.length s) (s +:+ t) = s.
Proof. induction s; simpl; [by destruct t|]. by f_equal. Qed.

Lemma span_app f s : fst (span f s) +:+ snd (span f s) = s.
Proof.
  induction s as [|a s IH]; simpl; [done|].
  destruct (f a); simpl; [|done].
  destruct (span f s) as [pre post]; simpl in *. by f_equal.
Qed.

Lemma span_all f s : all_chars f (fst (span f s)) = true.
Proof.
  induction s as [|a s IH]; simpl; [done|].
  destruct (f a) eqn:E; simpl; [|done].
  destruct (span f s) as [pre post]; simpl in *. by rewrite E.
Qed.

Lemma span_exact f pre post :
  all_chars f pre = true ->
  (forall a r, post = String a r -> f a = false) ->
  span f (pre +:+ post) = (pre, post).
Proof.
  intros Hall Hstop. induction pre as [|a pre IH]; simpl in *.
  - destruct post as [|b post]; simpl; [done|]. by rewrite (Hstop b post).
  - apply andb_true_iff in Hall as [-> Hall]. by rewrite IH.
Qed.

(** ** The matcher on the constructs of the routes *)

Lemma consumed_app pre post : consumed (pre +:+ post) post = pre.
Proof.
  unfold consumed. rewrite length_append.
  replace (String.length pre + String.length post - String.length post)%nat
    with (String.length pre) by lia.
  apply take_app.
Qed.

(** When what follows cannot start with a character of the class, giving
    characters back never helps: only the longest run is to be tried. *)
Lemma rx_star_blocked {R} f s (k : string -> option R) :
  (forall a s', f a = true -> k (String a s') = None) ->
  rx_star f s k = k (snd (span f s)).
Proof.
  intros Hk. induction s as [|a s IH]; simpl; [done|].
  destruct (f a) eqn:E; [|done].
  rewrite IH. destruct (span f s) as [pre post]; simpl.
  destruct (k post); [done|]. by apply Hk.
Qed.

(** When what follows succeeds after the longest run, that is the match. *)
Lemma rx_star_greedy {R} f s (k : string -> option R) x :
  k (snd (span f s)) = Some x -> rx_star f s k = Some x.
Proof.
  induction s as [|a s IH]; simpl; [done|].
  destruct (f a) eqn:E; [|done].
  destruct (span f s) as [pre post]; simpl in *. intros H. by rewrite (IH H).
Qed.

Lemma rx_scheme R u cs k :
  rx (RCat (RLit "http") (RCat (ROpt (RLit "s")) (RCat (RLit "://") R))) u cs k
  = match scheme_rest u with Some r => rx R r cs k | None => None end.
Proof.
  unfold scheme_rest. cbn [rx].
  destruct (strip_prefix "http" u) as [r1|]; [|done].
  destruct (strip_prefix "s" r1) as [r2|] eqn:E; [|done].
  apply strip_prefix_inv in E as ->.
  destruct (strip_prefix "://" r2) as [r3|]; [|done].
  by destruct (rx R r3 cs k).
Qed.

Lemma rx_subdomain R2 r cs k :
  (forall b s' cs', non_dot b = true -> rx R2 (String b s') cs' k = None) ->
  rx (RCat (RGroup 1 (RPlus (CNot "."))) R2) r cs k
  = match span non_dot r with
    | (String a sub, post) => rx R2 post ((1%nat, String a sub) :: cs) k
    | (EmptyString, _) => None
    end.
Proof.
  intros Hk. cbn [rx]. destruct r as [|a r]; [done|].
  cbn [span in_class]. fold (non_dot a).
  destruct (non_dot a) eqn:Ea; [|done].
  change (in_class (CNot ".")) with non_dot.
  rewrite rx_star_blocked.
  - pose proof (span_app non_dot r) as Happ.
    destruct (span non_dot r) as [pre post]; simpl in *.
    rewrite <- Happ.
    pose proof (consumed_app (String a pre) post) as Hc.
    simpl in Hc. by rewrite Hc.
  - intros b s' Hb. by apply Hk.
Qed.

Lemma rx_dot_blocked l R b s cs k :
  non_dot b = true -> rx (RCat (RLit (String "." l)) R) (String b s) cs k = None.
Proof.
  unfold non_dot. intros Hb. cbn [rx strip_prefix].
  rewrite Ascii.eqb_sym. by destruct (Ascii.eqb b ".").
Qed.

Lemma rx_dot_blocked_last l b s cs k :
  non_dot b = true -> rx (RLit (String "." l)) (String b s) cs k = None.
Proof.
  unfold non_dot. intros Hb. cbn [rx strip_prefix].
  rewrite Ascii.eqb_sym. by destruct (Ascii.eqb b ".").
Qed.

Lemma rx_digits r cs :
  rx (RGroup 3 (RPlus CDigit)) r cs accept
  = match fst (span is_digit r) with
    | EmptyString => None
    | String _ _ as d => Some ((3%nat, d) :: cs)
    end.
Proof.
  cbn [rx]. destruct r as [|a r]; [done|]. cbn [span in_class].
  destruct (is_digit a) eqn:Ea; [|done].
  change (in_class CDigit) with is_digit.
  pose proof (span_app is_digit r) as Happ.
  erewrite rx_star_greedy; [|reflexivity].
  destruct (span is_digit r) as [pre post]; simpl in *.
  rewrite <- Happ.
  pose proof (consumed_app (String a pre) post) as Hc.
  simpl in Hc. by rewrite Hc.
Qed.

Lemma rx_ticket_tail r cs :
  rx (RCat (RGroup 2 (RAlt (RLit "tickets") (RLit "views")))
        (RCat (RLit "/") (RGroup 3 (RPlus CDigit)))) r cs accept
  = match ticket_tail r with
    | Some (k, d) => Some ((3%nat, d) :: (2%nat, k) :: cs)
    | None => None
    end.
Proof.
  unfold ticket_tail. cbn [rx].
  destruct (strip_prefix "tickets" r) as [r1|] eqn:E1.
  - apply strip_prefix_inv in E1 as ->.
    rewrite (consumed_app "tickets" r1).
    destruct (strip_prefix "/" r1) as [r2|]; [|done].
    fold (rx (RGroup 3 (RPlus CDigit)) r2 ((2%nat, "tickets") :: cs) accept).
    rewrite rx_digits. by destruct (fst (span is_digit r2)).
  - destruct (strip_prefix "views" r) as [r1|] eqn:E2; [|done].
    apply strip_prefix_inv in E2 as ->.
    rewrite (consumed_app "views" r1).
    destruct (strip_prefix "/" r1) as [r2|]; [|done].
    fold (rx (RGroup 3 (RPlus CDigit)) r2 ((2%nat, "views") :: cs) accept).
    rewrite rx_digits. by destruct (fst (span is_digit r2)).
Qed.

(** ** The routes agree with their left-to-right readings *)

Lemma rx_route area u :
  rx (rseq (zendesk_head ++
       [ RLit area; RGroup 2 (RAlt (RLit "tickets") (RLit "views"));
         RLit "/"; RGroup 3 (RPlus CDigit) ])) u [] accept
  = route_captures (route_parts area u).
Proof.
  unfold route_parts, host_split.
  change (rseq _) with
    (RCat (RLit "http") (RCat (ROpt (RLit "s")) (RCat (RLit "://")
      (RCat (RGroup 1 (RPlus (CNot ".")))
        (RCat (RLit ".zendesk.com") (RCat (RLit area)
          (RCat (RGroup 2 (RAlt (RLit "tickets") (RLit "views")))
             (RCat (RLit "/") (RGroup 3 (RPlus CDigit)))))))))).
  rewrite rx_scheme. destruct (scheme_rest u) as [r|]; [|done].
  rewrite rx_subdomain by (intros; by apply rx_dot_blocked).
  destruct (span non_dot r) as [[|a sub] post]; [done|].
  cbn [rx]. destruct (strip_prefix ".zendesk.com" post) as [rest|]; [|done].
  destruct (strip_prefix area rest) as [r1|]; [|done].
  pose proof (rx_ticket_tail r1 [(1%nat, String a sub)]) as Ht.
  cbn [rx] in Ht. rewrite Ht.
  by destruct (ticket_tail r1) as [[k d]|].
Qed.

Lemma exec_TICKET_ROUTE u :
  exec TICKET_ROUTE u = route_captures (route_parts "/agent/" u).
Proof. apply rx_route. Qed.

Lemma exec_HASH_TICKET_ROUTE u :
  exec HASH_TICKET_ROUTE u = route_captures (route_parts "/agent/#/" u).
Proof. apply rx_route. Qed.

Lemma exec_SUBDOMAIN_ROUTE u :
  exec SUBDOMAIN_ROUTE u
  = match host_split u with Some (sub, _) => Some [(1%nat, sub)] | None => None end.
Proof.
  unfold host_split, exec, SUBDOMAIN_ROUTE. cbn [re_anchored re_body].
  change (rseq _) with
    (RCat (RLit "http") (RCat (ROpt (RLit "s")) (RCat (RLit "://")
      (RCat (RGroup 1 (RPlus (CNot "."))) (RLit ".zendesk.com"))))).
  rewrite rx_scheme. destruct (scheme_rest u) as [r|]; [|done].
  rewrite rx_subdomain by (intros; by apply rx_dot_blocked_last).
  destruct (span non_dot r) as [[|a sub] post]; [done|].
  cbn [rx]. by destruct (strip_prefix ".zendesk.com" post).
Qed.

Lemma test_TEAMS_SAFEURL u :
  test TEAMS_SAFEURL u
  = match scheme_rest u with
    | Some r =>
        starts_with "statics.teams.cdn.office.net/evergreen-assets/safelinks" r
    | None => false
    end.
Proof.
  unfold test, exec, TEAMS_SAFEURL, starts_with. cbn [re_anchored re_body].
  change (rseq _) with
    (RCat (RLit "http") (RCat (ROpt (RLit "s")) (RCat (RLit "://")
      (RLit "statics.teams.cdn.office.net/evergreen-assets/safelinks")))).
  rewrite rx_scheme. destruct (scheme_rest u) as [r|]; [|done].
  cbn [rx]. by destruct (strip_prefix _ r).
Qed.

Lemma extractSubdomain_spec u :
  extractSubdomain u
  = match host_split u with Some (sub, _) => Some sub | None => None end.
Proof.
  unfold extractSubdomain. rewrite exec_SUBDOMAIN_ROUTE.
  by destruct (host_split u) as [[sub rest]|].
Qed.

Lemma extractTicketNumber_spec u :
  extractTicketNumber u
  = match route_parts "/agent/" u with
    | Some (_, _, d) => Some d
    | None =>
        match route_parts "/agent/#/" u with
        | Some (_, _, d) => Some d
        | None => None
        end
    end.
Proof.
  unfold extractTicketNumber. rewrite exec_TICKET_ROUTE, exec_HASH_TICKET_ROUTE.
  destruct (route_parts "/agent/" u) as [[[sub k] d]|]; [done|].
  by destruct (route_parts "/agent/#/" u) as [[[sub k] d]|].
Qed.

Lemma test_TICKET_ROUTE u :
  test TICKET_ROUTE u
  = match route_parts "/agent/" u with Some _ => true | None => false end.
Proof.
  unfold test. rewrite exec_TICKET_ROUTE.
  by destruct (route_parts "/agent/" u) as [[[sub k] d]|].
Qed.

Lemma test_HASH_TICKET_ROUTE u :
  test HASH_TICKET_ROUTE u
  = match route_parts "/agent/#/" u with Some _ => true | None => false end.
Proof.
  unfold test. rewrite exec_HASH_TICKET_ROUTE.
  by destruct (route_parts "/agent/#/" u) as [[[sub k] d]|].
Qed.

(** The expressions on sample inputs: the captures of both routes, a
    subdomain with a dot, the backtracking and the nested groups of
    [RESTRICTED_ROUTE], the unanchored and case-insensitive ones. *)
Example routes_on_samples :
  exec TICKET_ROUTE "https://acme.zendesk.com/agent/views/360/x"
  = Some [(3%nat, "360"); (2%nat, "views"); (1%nat, "acme")]
  /\ exec HASH_TICKET_ROUTE "http://a-b.zendesk.com/agent/#/tickets/12"
     = Some [(3%nat, "12"); (2%nat, "tickets"); (1%nat, "a-b")]
  /\ exec SUBDOMAIN_ROUTE "https://a.b.zendesk.com/" = None
  /\ extractTicketNumber "https://acme.zendesk.com/agent/tickets/" = None
  /\ exec RESTRICTED_ROUTE "http://x.zendesk.com/agent/talk/7?y"
     = Some [(2%nat, "agent/talk/7?y"); (4%nat, "7?y"); (3%nat, "talk");
             (1%nat, "x")]
  /\ test RESTRICTED_ROUTE "https://a.b.zendesk.com/tickets//print" = true
  /\ test PRINT_VIEW "/agent/TICKETS/12/Print" = true
  /\ test PRINT_VIEW "/tickets//print" = false
  /\ test ZENDESK_HOST "acme.zendesk.com.evil.org" = false.
Proof. by vm_compute. Qed.

(** [isRestrictedZendeskUrl] on sample inputs, with the reference
    built-ins. *)
Example restricted_on_samples :
  isRestrictedZendeskUrl (B:=reference) "https://acme.zendesk.com/agent/chat/1"
  = true
  /\ isRestrictedZendeskUrl (B:=reference)
       "https://acme.zendesk.com/tickets/5/print" = true
  /\ isRestrictedZendeskUrl (B:=reference)
       "https://acme.zendesk.com/#/agent/TALK" = true
  /\ isRestrictedZendeskUrl (B:=reference)
       "https://acme.zendesk.com/agent/tickets/5" = false
  /\ isRestrictedZendeskUrl (B:=reference)
       "https://x.zendesk.com.evil.org/agent/chat" = false.
Proof. by vm_compute. Qed.

(** ** What a match says about the URL, and which URLs match *)

Lemma scheme_rest_inv u r :
  scheme_rest u = Some r -> exists sch, is_scheme sch /\ u = sch +:+ r.
Proof.
  unfold scheme_rest, is_scheme.
  destruct (strip_prefix "http" u) as [r1|] eqn:E1; [|done].
  apply strip_prefix_inv in E1 as ->.
  destruct (strip_prefix "s" r1) as [r2|] eqn:E2.
  - apply strip_prefix_inv in E2 as ->. intros E3.
    apply strip_prefix_inv in E3 as ->. exists "https://". eauto.
  - intros E3. apply strip_prefix_inv in E3 as ->. exists "http://". eauto.
Qed.

Lemma scheme_rest_build sch r :
  is_scheme sch -> scheme_rest (sch +:+ r) = Some r.
Proof. by intros [-> | ->]. Qed.

Lemma host_split_inv u sub rest :
  host_split u = Some (sub, rest) ->
  is_label sub
  /\ exists sch, is_scheme sch /\ u = sch +:+ sub +:+ ".zendesk.com" +:+ rest.
Proof.
  unfold host_split, is_label.
  destruct (scheme_rest u) as [r|] eqn:E; [|done].
  apply scheme_rest_inv in E as (sch & Hsch & ->).
  pose proof (span_app non_dot r) as Happ.
  pose proof (span_all non_dot r) as Hall.
  destruct (span non_dot r) as [[|a pre] post]; [done|]. simpl in Happ, Hall.
  destruct (strip_prefix ".zendesk.com" post) as [rest'|] eqn:E2; [|done].
  apply strip_prefix_inv in E2 as ->. intros [= <- <-].
  split; [done|]. exists sch. split; [done|]. by rewrite <- Happ.
Qed.

Lemma host_split_build sch sub rest :
  is_scheme sch -> is_label sub ->
  host_split (sch +:+ sub +:+ ".zendesk.com" +:+ rest) = Some (sub, rest).
Proof.
  intros Hsch [Hne Hall]. unfold host_split.
  rewrite scheme_rest_build by done.
  rewrite span_exact; [|done|].
  - destruct sub; [done|]. by rewrite strip_prefix_app.
  - simpl. by intros a r [= <- _].
Qed.

Lemma ticket_tail_inv r k d :
  ticket_tail r = Some (k, d) -> d <> "" /\ all_chars is_digit d = true.
Proof.
  unfold ticket_tail.
  destruct (strip_prefix "tickets" r) as [r1|].
  - destruct (strip_prefix "/" r1) as [r2|]; [|done].
    pose proof (span_all is_digit r2) as Hall.
    destruct (fst (span is_digit r2)); [done|]. intros [= <- <-]. eauto.
  - destruct (strip_prefix "views" r) as [r1|]; [|done].
    destruct (strip_prefix "/" r1) as [r2|]; [|done].
    pose proof (span_all is_digit r2) as Hall.
    destruct (fst (span is_digit r2)); [done|]. intros [= <- <-]. eauto.
Qed.

Lemma ticket_tail_build k d rest :
  k = "tickets" \/ k = "views" ->
  d <> "" -> all_chars is_digit d = true -> no_leading_digit rest ->
  ticket_tail (k +:+ "/" +:+ d +:+ rest) = Some (k, d).
Proof.
  intros Hk Hne Hall Hrest. unfold ticket_tail.
  destruct Hk as [-> | ->]; simpl; rewrite span_exact by done; by destruct d.
Qed.

Lemma route_parts_build sch sub area k d rest :
  is_scheme sch -> is_label sub ->
  k = "tickets" \/ k = "views" ->
  d <> "" -> all_chars is_digit d = true -> no_leading_digit rest ->
  route_parts area
    (sch +:+ sub +:+ ".zendesk.com" +:+ area +:+ k +:+ "/" +:+ d +:+ rest)
  = Some (sub, k, d).
Proof.
  intros. unfold route_parts. rewrite host_split_build by done.
  rewrite strip_prefix_app. by rewrite ticket_tail_build.
Qed.

Lemma route_parts_inv area u sub k d :
  route_parts area u = Some (sub, k, d) ->
  is_label sub /\ d <> "" /\ all_chars is_digit d = true
  /\ exists rest, host_split u = Some (sub, rest).
Proof.
  unfold route_parts.
  destruct (host_split u) as [[sub' rest]|] eqn:E; [|done].
  destruct (strip_prefix area rest) as [r|]; [|done].
  destruct (ticket_tail r) as [[k' d']|] eqn:E2; [|done].
  intros [= <- <- <-].
  apply host_split_inv in E as (? & _).
  apply ticket_tail_inv in E2 as (? & ?). eauto 10.
Qed.

Lemma extractSubdomain_inv u s : extractSubdomain u = Some s -> is_label s.
Proof.
  rewrite extractSubdomain_spec.
  destruct (host_split u) as [[sub rest]|] eqn:E; [|done].
  intros [= <-]. apply host_split_inv in E. tauto.
Qed.

Lemma extractTicketNumber_inv u n :
  extractTicketNumber u = Some n -> n <> "" /\ all_chars is_digit n = true.
Proof.
  rewrite extractTicketNumber_spec.
  destruct (route_parts "/agent/" u) as [[[sub k] d]|] eqn:E.
  - intros [= <-]. apply route_parts_inv in E. tauto.
  - destruct (route_parts "/agent/#/" u) as [[[sub k] d]|] eqn:E2; [|done].
    intros [= <-]. apply route_parts_inv in E2. tauto.
Qed.

Lemma no_leading_digit_empty : no_leading_digit "".
Proof. by intros a r. Qed.

Lemma cleanUrl_route sub n :
  is_label sub -> n <> "" -> all_chars is_digit n = true ->
  route_parts "/agent/" (cleanUrl sub n) = Some (sub, "tickets", n).
Proof.
  intros. unfold cleanUrl.
  pose proof (route_parts_build "https://" sub "/agent/" "tickets" n "") as Hb.
  rewrite append_empty_r in Hb. simpl in Hb. simpl.
  apply Hb; first [done | by right | by left | apply no_leading_digit_empty].
Qed.

(** ** The classifier *)

(** C9.  Classification is a function of the URL string alone, and it is
    idempotent under canonical rebuilding: when [extractSubdomain] and
    [extractTicketNumber] give [s] and [n] on a URL, they give [s] and
    [n] again on the clean URL [https://s.zendesk.com/agent/tickets/n],
    which is itself a ticket URL. *)
Theorem classification_idempotent u s n :
  extractSubdomain u = Some s ->
  extractTicketNumber u = Some n ->
  extractSubdomain (cleanUrl s n) = Some s
  /\ extractTicketNumber (cleanUrl s n) = Some n
  /\ isTicketUrl (cleanUrl s n) = true.
Proof.
  intros Hs Hn.
  apply extractSubdomain_inv in Hs.
  apply extractTicketNumber_inv in Hn as [Hn1 Hn2].
  pose proof (cleanUrl_route s n Hs Hn1 Hn2) as Hr.
  split; [|split].
  - rewrite extractSubdomain_spec.
    apply route_parts_inv in Hr as (_ & _ & _ & rest & Hh).
    by rewrite Hh.
  - rewrite extractTicketNumber_spec. by rewrite Hr.
  - unfold isTicketUrl. rewrite test_TICKET_ROUTE. by rewrite Hr.
Qed.

Lemma classification_idempotent_witness :
  extractSubdomain (cleanUrl "acme" "77") = Some "acme"
  /\ extractTicketNumber (cleanUrl "acme" "77") = Some "77"
  /\ isTicketUrl (cleanUrl "acme" "77") = true.
Proof.
  apply (classification_idempotent
           "http://acme.zendesk.com/agent/#/views/77?page=2");
    reflexivity.
Defined.

(** C8, as stated, fails: on [/agent/tickets/123abc] the ticket number
    [123] is extracted, the URL is a ticket URL, and the navigation of a
    freshly created tab to it starts a hand-off to ticket 123. *)
Lemma trailing_text_keeps_ticket_number :
  extractTicketNumber "https://acme.zendesk.com/agent/tickets/123abc"
  = Some "123"
  /\ isTicketUrl "https://acme.zendesk.com/agent/tickets/123abc" = true
  /\ calls (run (quiet (replies [acme_ticket_80] false)) 0
              (handleNavigation (B:=reference) 1500
                 (navigation 7 "https://acme.zendesk.com/agent/tickets/123abc")
                 tab7_created))
     = [ GetAllSettings; TabsQuery "*://acme.zendesk.com/*"; TabsActivate 3;
         WindowsFocus 1;
         TabsNavigate 3 "https://acme.zendesk.com/agent/tickets/123" ].
Proof. by vm_compute. Qed.

(** C8, amended.  On a URL of either route whose digits are followed by
    text that does not start with a digit, the ticket number is the run
    of digits: the text after it is ignored, the subdomain is extracted
    and the URL is a ticket URL. *)
Theorem ticket_number_is_leading_digits sch sub area kind d rest :
  is_scheme sch -> is_label sub ->
  area = "/agent/" \/ area = "/agent/#/" ->
  kind = "tickets" \/ kind = "views" ->
  d <> "" -> all_chars is_digit d = true -> no_leading_digit rest ->
  let url :=
    sch +:+ sub +:+ ".zendesk.com" +:+ area +:+ kind +:+ "/" +:+ d +:+ rest in
  extractTicketNumber url = Some d
  /\ extractSubdomain url = Some sub
  /\ isTicketUrl url = true.
Proof.
  intros Hs Hl Ha Hk Hd1 Hd2 Hrest url.
  pose proof (route_parts_build sch sub area kind d rest Hs Hl Hk Hd1 Hd2 Hrest)
    as Hr. fold url in Hr.
  assert (host_split url = Some (sub, area +:+ kind +:+ "/" +:+ d +:+ rest))
    as Hh by (by apply host_split_build).
  split; [|split].
  - rewrite extractTicketNumber_spec. destruct Ha as [-> | ->].
    + by rewrite Hr.
    + assert (route_parts "/agent/" url = None) as ->; [|by rewrite Hr].
      unfold route_parts. rewrite Hh. reflexivity.
  - rewrite extractSubdomain_spec. by rewrite Hh.
  - unfold isTicketUrl. rewrite test_TICKET_ROUTE, test_HASH_TICKET_ROUTE.
    destruct Ha as [-> | ->]; rewrite Hr; [done|]. by rewrite orb_true_r.
Qed.

Lemma ticket_number_is_leading_digits_witness :
  extractTicketNumber "https://acme.zendesk.com/agent/tickets/123abc"
  = Some "123"
  /\ extractSubdomain "https://acme.zendesk.com/agent/tickets/123abc"
     = Some "acme"
  /\ isTicketUrl "https://acme.zendesk.com/agent/tickets/123abc" = true.
Proof.
  apply (ticket_number_is_leading_digits
           "https://" "acme" "/agent/" "tickets" "123" "abc").
  - by right.
  - by split.
  - by left.
  - by left.
  - done.
  - reflexivity.
  - intros a r [= <- _]. reflexivity.
Defined.

(** ** Running an activation *)

Ltac exec_step :=
  cbn [bindP finallyP catchP run bind modify try_finally try_catch await
       get_state ret throw quiet reply interfere catch_block].

Lemma after_calls_app {A} cs1 cs2 (r : Run A) :
  after_calls cs1 (after_calls cs2 r) = after_calls (cs1 ++ cs2) r.
Proof. unfold after_calls; simpl. by rewrite app_assoc. Qed.

(** ** The tab tracker *)

(** C1, as stated, fails: tab 7, registered as the target of a navigation
    one millisecond after its creation and still registered, is reported
    as not recent. *)
Lemma navigation_target_reported_not_recent :
  7 ∈ navigationTabs
        (onCreatedNavigationTarget
           {| td_sourceTabId := 3; td_tabId := 7; td_url := ticket_500 |}
           tab7_created)
  /\ fst (isTabRecentlyNew 7 1001
            (onCreatedNavigationTarget
               {| td_sourceTabId := 3; td_tabId := 7; td_url := ticket_500 |}
               tab7_created))
     = false.
Proof. split; [set_solver|]. by vm_compute. Qed.

(** C1, amended.  A tab registered by the navigation-target-created
    listener is in [navigationTabs], and for a tab that is in
    [navigationTabs] (registered and not forgotten since)
    [isTabRecentlyNew] answers [false] at every time and leaves the state
    as it is: navigation targets are ignored, whatever their age. *)
Theorem navigation_target_is_never_recent details s :
  td_tabId details <> 0 ->
  td_tabId details ∈ navigationTabs (onCreatedNavigationTarget details s)
  /\ forall s' now,
       td_tabId details ∈ navigationTabs s' ->
       isTabRecentlyNew (td_tabId details) now s' = (false, s').
Proof.
  intros Htab. split.
  - unfold onCreatedNavigationTarget. apply Z.eqb_neq in Htab.
    destruct (intercepts details s); [cbn; set_solver|].
    rewrite Htab. cbn. set_solver.
  - intros s' now Hin. unfold isTabRecentlyNew.
    by destruct (decide (td_tabId details ∈ navigationTabs s')).
Qed.

Lemma navigation_target_is_never_recent_witness :
  isTabRecentlyNew 7 1001
    (onCreatedNavigationTarget
       {| td_sourceTabId := 3; td_tabId := 7; td_url := ticket_500 |}
       tab7_created)
  = (false,
     onCreatedNavigationTarget
       {| td_sourceTabId := 3; td_tabId := 7; td_url := ticket_500 |}
       tab7_created).
Proof.
  destruct (navigation_target_is_never_recent
              {| td_sourceTabId := 3; td_tabId := 7; td_url := ticket_500 |}
              tab7_created) as [Hin Hq].
  - cbn. lia.
  - apply Hq. exact Hin.
Defined.

Lemma isTicketUrl_nonempty url :
  isTicketUrl url = true -> truthy (Some url) = true.
Proof. by destruct url. Qed.

(** C5.  When a navigation-target-created event arrives while the global
    flag is set, for a ticket URL and with the tab ids of a real event
    (non-zero), the listener arms, with delay 0, a callback that updates
    the source tab to the URL, then asks for the new tab and removes it
    if it still exists, and never throws.  The new tab joins
    [navigationTabs], the tabs the recency check ignores: it is not
    reported recent, so it is no origin of a later hand-off. *)
Theorem navigation_target_during_handoff_is_redirected details s :
  isNavigating s = true ->
  td_sourceTabId details <> 0 ->
  td_tabId details <> 0 ->
  isTicketUrl (td_url details) = true ->
  let task := ForceSourceNavigation (td_sourceTabId details) (td_url details)
                (td_tabId details) in
  let s' := onCreatedNavigationTarget details s in
  timers s' = timers s ++ [(0, task)]
  /\ navigationTabs s' = {[td_tabId details]} ∪ navigationTabs s
  /\ (forall now, fst (isTabRecentlyNew (td_tabId details) now s') = false)
  /\ forall env s1,
       let c := run env 0 (fire task s1) in
       outcome c = Returned tt
       /\ (forall e, reply env 1%nat (TabsGet (td_tabId details)) = Thrown e ->
             calls c = [ TabsNavigate (td_sourceTabId details) (td_url details);
                         TabsGet (td_tabId details) ])
       /\ (forall t, reply env 1%nat (TabsGet (td_tabId details)) = Returned t ->
             tab_id t = td_tabId details ->
             calls c = [ TabsNavigate (td_sourceTabId details) (td_url details);
                         TabsGet (td_tabId details);
                         TabsRemove (td_tabId details) ]).
Proof.
  intros Hnav Hsrc Htab Hurl task s'. subst task s'.
  unfold onCreatedNavigationTarget, intercepts.
  rewrite Hnav, Hurl, (isTicketUrl_nonempty _ Hurl).
  apply Z.eqb_neq in Hsrc, Htab. rewrite Hsrc, Htab. cbn [negb andb].
  split; [done|]. split; [done|]. split.
  - intros now. unfold isTabRecentlyNew. cbn [navigationTabs set_navigationTabs].
    destruct (decide _) as [|Hn]; [done|]. exfalso. apply Hn. set_solver.
  - intros env s1. cbn zeta. unfold fire, tabExists. exec_step.
    destruct (reply env 0%nat (TabsNavigate _ _)) as [[]|e0]; exec_step;
      (destruct (reply env 1%nat (TabsGet _)) as [t|e1]; exec_step;
       [ destruct (tab_id t =? td_tabId details) eqn:E; exec_step;
         [ destruct (reply env 2%nat (TabsRemove _)) as [[]|e2]; exec_step |]
       | ]);
      (split; [done|]); (split; [intros; by simplify_eq|]);
      intros; simplify_eq; try done;
      match goal with H : (_ =? _) = false |- _ => by apply Z.eqb_neq in H end.
Qed.

Lemma navigation_target_during_handoff_is_redirected_witness :
  timers (onCreatedNavigationTarget
            {| td_sourceTabId := 3; td_tabId := 9; td_url := ticket_500 |}
            handoff_in_progress)
  = timers handoff_in_progress ++ [(0, ForceSourceNavigation 3 ticket_500 9)].
Proof.
  apply (navigation_target_during_handoff_is_redirected
           {| td_sourceTabId := 3; td_tabId := 9; td_url := ticket_500 |}
           handoff_in_progress).
  - reflexivity.
  - cbn. lia.
  - cbn. lia.
  - reflexivity.
Defined.

(** ** The hand-off *)

Ltac split_reply :=
  match goal with
  | |- context [match ?x with _ => _ end] =>
      lazymatch x with
      | context [match _ with _ => _ end] => fail
      | _ => destruct x eqn:?
      end
  end.

Section Handoff.
Context {B : Builtins}.

(** An activation that reaches the comparison has issued the settings
    read, the query and the two focus calls, and goes on in [locked]. *)
Lemma focused_run (rep : Replies) newTabId ticketUrl s0 settings target :
  Focused rep newTabId ticketUrl s0 settings target ->
  run (quiet rep) 0 (reuseZendeskTab newTabId ticketUrl s0)
  = after_calls
      [ GetAllSettings;
        TabsQuery (query_pattern (extractSubdomain ticketUrl));
        TabsActivate (tab_id target);
        WindowsFocus (tab_windowId target) ]
      (run (quiet rep) 4
         (finallyP
            (catchP
               (after_focus (noReloadNavigation settings) newTabId
                  (key_of ticketUrl) target (clean_of ticketUrl)
                  (locked ticketUrl s0))
               catch_block)
            (modify (set_isNavigating false)))).
Proof.
  intros [[Hsub Hnum Hfree Hset (allTabs & first & others & Hq & Hc & ->)]
            Ht Hf1 Hf2].
  unfold reuseZendeskTab. exec_step. rewrite Hset. exec_step.
  rewrite Hsub, Hnum. cbn [negb orb]. exec_step.
  fold (key_of ticketUrl).
  destruct (decide (key_of ticketUrl ∈ _)) as [Hin|_].
  { exfalso. apply Hfree. by cbn in Hin. }
  exec_step. rewrite Hq. exec_step. rewrite Hc.
  unfold toISOString. rewrite Ht. exec_step. rewrite Hf1. exec_step.
  rewrite Hf2. exec_step.
  rewrite !after_calls_app. reflexivity.
Qed.

(** The callback that closes the duplicate asks for the tab first. *)
Lemma close_duplicate_run env newTabId s :
  let c := run env 0 (fire (CloseDuplicate newTabId) s) in
  (forall e, reply env 0%nat (TabsGet newTabId) = Thrown e ->
     calls c = [TabsGet newTabId] /\ outcome c = Returned tt)
  /\ (forall t, reply env 0%nat (TabsGet newTabId) = Returned t ->
        tab_id t <> newTabId ->
        calls c = [TabsGet newTabId] /\ outcome c = Returned tt)
  /\ (forall t, reply env 0%nat (TabsGet newTabId) = Returned t ->
        tab_id t = newTabId ->
        calls c = [TabsGet newTabId; TabsRemove newTabId]
        /\ (reply env 1%nat (TabsRemove newTabId) = Returned tt ->
            outcome c = Returned tt)).
Proof.
  cbn zeta. unfold fire, tabExists. exec_step. split; [|split].
  - intros e ->. by exec_step.
  - intros t -> Hne. exec_step. apply Z.eqb_neq in Hne. rewrite Hne.
    by exec_step.
  - intros t -> Heq. exec_step. apply Z.eqb_eq in Heq. rewrite Heq. exec_step.
    split; [by destruct (reply env 1%nat (TabsRemove newTabId))|].
    intros ->. by exec_step.
Qed.

(** The same-URL branch.  In a hand-off whose selected target tab
    already shows the clean URL, no script is injected and no URL is
    updated, however the activation goes on.  When the log line on the
    target's last access does not throw and both focus calls resolve,
    the calls made are exactly the settings read, the query and
    the two focus calls, the activation returns normally with the lock
    released and the global flag cleared, and it has armed, after the two
    failsafe timers, the 100 ms callback for the origin tab.  That
    callback asks for the tab first; when the tab is gone (the request is
    rejected, or answers with another tab) it attempts no removal and
    returns normally; when the tab exists it removes it. *)
Theorem same_url_skips_navigation
    (rep : Replies) newTabId ticketUrl s0 settings target :
  Selected rep newTabId ticketUrl s0 settings target ->
  tab_url target = clean_of ticketUrl ->
  let r := run (quiet rep) 0 (reuseZendeskTab newTabId ticketUrl s0) in
  Forall (fun c => is_navigation c = false) (calls r)
  /\ (valid_time (tab_lastAccessed target) = true ->
      rep 2%nat (TabsActivate (tab_id target)) = Returned tt ->
      rep 3%nat (WindowsFocus (tab_windowId target)) = Returned tt ->
      calls r = [ GetAllSettings;
                  TabsQuery (query_pattern (extractSubdomain ticketUrl));
                  TabsActivate (tab_id target);
                  WindowsFocus (tab_windowId target) ]
      /\ outcome r = Returned tt
      /\ timers (final r)
         = timers s0 ++ [ (3000, ReleaseGlobalLock);
                          (5000, ReleaseNavigationKey (key_of ticketUrl));
                          (100, CloseDuplicate newTabId) ]
      /\ (key_of ticketUrl ∉ ongoingNavigations (final r))
      /\ isNavigating (final r) = false)
  /\ forall env s,
       let c := run env 0 (fire (CloseDuplicate newTabId) s) in
       (forall e, reply env 0%nat (TabsGet newTabId) = Thrown e ->
          calls c = [TabsGet newTabId] /\ outcome c = Returned tt)
       /\ (forall t, reply env 0%nat (TabsGet newTabId) = Returned t ->
             tab_id t <> newTabId ->
             calls c = [TabsGet newTabId] /\ outcome c = Returned tt)
       /\ (forall t, reply env 0%nat (TabsGet newTabId) = Returned t ->
             tab_id t = newTabId ->
             calls c = [TabsGet newTabId; TabsRemove newTabId]
             /\ (reply env 1%nat (TabsRemove newTabId) = Returned tt ->
                 outcome c = Returned tt)).
Proof.
  intros Hs Hsame r. subst r. split; [|split].
  - destruct Hs as [Hsub Hnum Hfree Hset
                      (allTabs & first & others & Hq & Hc & ->)].
    unfold reuseZendeskTab. exec_step. rewrite Hset. exec_step.
    rewrite Hsub, Hnum. cbn [negb orb]. exec_step.
    fold (key_of ticketUrl).
    destruct (decide (key_of ticketUrl ∈ _)) as [Hin|_].
    { exfalso. apply Hfree. by cbn in Hin. }
    exec_step. rewrite Hq. exec_step. rewrite Hc.
    unfold toISOString, after_focus. rewrite Hsame, String.eqb_refl.
    repeat (exec_step; cbn [after_calls calls final outcome app];
            try split_reply);
      by repeat constructor.
  - intros Ht Hf1 Hf2.
    rewrite (focused_run _ _ _ _ _ _ (Build_Focused _ _ _ _ _ _ Hs Ht Hf1 Hf2)).
    unfold after_focus. rewrite Hsame, String.eqb_refl. exec_step.
    cbn [after_calls calls final outcome app].
    split; [done|]. split; [done|]. split; [|split; [|done]].
    + cbn. by rewrite <- !app_assoc.
    + cbn. apply not_elem_of_difference. right. by apply elem_of_singleton.
  - intros env s. apply close_duplicate_run.
Qed.

(** C6 fails on the code.  A hand-off whose selected target already
    shows the clean URL, but carries no [lastAccessed] (or one that is no
    time value), never reaches the comparison of the URLs: the log line
    on the last access throws, so after the settings read and the query
    no call is made and the target is not focused, no callback to close
    the new tab is armed, the activation ends with the [ReferenceError]
    of its [catch] block and the key stays in [ongoingNavigations].  And
    where the close callback does run, a rejection of [tabs.remove]
    escapes it. *)
Theorem same_url_handoff_aborts_without_last_access
    (rep : Replies) newTabId ticketUrl s0 settings target :
  Selected rep newTabId ticketUrl s0 settings target ->
  tab_url target = clean_of ticketUrl ->
  valid_time (tab_lastAccessed target) = false ->
  let r := run (quiet rep) 0 (reuseZendeskTab newTabId ticketUrl s0) in
  calls r
  = [ GetAllSettings; TabsQuery (query_pattern (extractSubdomain ticketUrl)) ]
  /\ outcome r = Thrown ReferenceError
  /\ timers (final r)
     = timers s0 ++ [ (3000, ReleaseGlobalLock);
                      (5000, ReleaseNavigationKey (key_of ticketUrl)) ]
  /\ key_of ticketUrl ∈ ongoingNavigations (final r)
  /\ forall env s t e,
       reply env 0%nat (TabsGet newTabId) = Returned t ->
       tab_id t = newTabId ->
       reply env 1%nat (TabsRemove newTabId) = Thrown e ->
       calls (run env 0 (fire (CloseDuplicate newTabId) s))
       = [TabsGet newTabId; TabsRemove newTabId]
       /\ outcome (run env 0 (fire (CloseDuplicate newTabId) s)) = Thrown e.
Proof.
  intros [Hsub Hnum Hfree Hset (allTabs & first & others & Hq & Hc & ->)]
    Hsame Ht r.
  subst r. split; [|split; [|split; [|split]]].
  1-4: unfold reuseZendeskTab; exec_step; rewrite Hset; exec_step;
    rewrite Hsub, Hnum; cbn [negb orb]; exec_step;
    fold (key_of ticketUrl);
    (destruct (decide (key_of ticketUrl ∈ _)) as [Hin|_];
      [exfalso; apply Hfree; by cbn in Hin|]);
    exec_step; rewrite Hq; exec_step; rewrite Hc;
    unfold toISOString; rewrite Ht; exec_step;
    cbn [after_calls calls final outcome app].
  - done.
  - done.
  - cbn. by rewrite <- !app_assoc.
  - cbn. apply elem_of_union. left. by apply elem_of_singleton.
  - intros env s t e Hget Hid Hrm. unfold fire, tabExists. exec_step.
    rewrite Hget. exec_step. apply Z.eqb_eq in Hid. rewrite Hid. exec_step.
    rewrite Hrm. by exec_step.
Qed.

(** C7.  In a hand-off whose target tab shows another URL than the clean
    one: with no-reload mode disabled the next call after the focus calls
    is the URL update of the target to the clean URL; with no-reload mode
    enabled (the target's URL being one that [new URL] accepts) the
    script is injected, and unless it reports success (a rejection, no
    result, or a result whose [success] is false) the URL update of the
    target to the clean URL follows; when it reports success no URL
    update is made. *)
Theorem failed_in_place_navigation_falls_back
    (rep : Replies) newTabId ticketUrl s0 settings target :
  Focused rep newTabId ticketUrl s0 settings target ->
  tab_url target <> clean_of ticketUrl ->
  let r := run (quiet rep) 0 (reuseZendeskTab newTabId ticketUrl s0) in
  let focus :=
    [ GetAllSettings;
      TabsQuery (query_pattern (extractSubdomain ticketUrl));
      TabsActivate (tab_id target);
      WindowsFocus (tab_windowId target) ] in
  let inject := ExecuteScript (tab_id target) (clean_of ticketUrl) in
  let update := TabsNavigate (tab_id target) (clean_of ticketUrl) in
  (noReloadNavigation settings = false -> calls r = focus ++ [update])
  /\ (noReloadNavigation settings = true ->
      is_Some (url_parse (tab_url target)) ->
      (reports_success (rep 4%nat inject) = false ->
         exists more, calls r = focus ++ [inject; update] ++ more)
      /\ (reports_success (rep 4%nat inject) = true ->
            calls r = focus ++ [inject])).
Proof.
  intros Hf Hdiff r focus inject update. subst r focus inject update.
  rewrite (focused_run _ _ _ _ _ _ Hf).
  unfold after_focus. apply String.eqb_neq in Hdiff. rewrite Hdiff.
  unfold navigate. split.
  - intros ->. exec_step.
    destruct (rep 4%nat (TabsNavigate _ _)); by exec_step.
  - intros -> [parts Hparts]. unfold url_pathname. rewrite Hparts. exec_step.
    unfold reports_success.
    destruct (rep 4%nat (ExecuteScript _ _)) as [results|e].
    + exec_step. destruct (script_result results) as [result|].
      * destruct (nr_success result).
        -- split; [done|]. intros _. by exec_step.
        -- split; [|done]. intros _. exec_step.
           destruct (rep 5%nat (TabsNavigate _ _)).
           ++ exec_step. by exists [].
           ++ exec_step.
              destruct (rep 6%nat (TabsNavigate _ _)); exec_step;
                by eexists [_].
      * split; [|done]. intros _. exec_step.
        destruct (rep 5%nat (TabsNavigate _ _)); exec_step; by exists [].
    + split; [|done]. intros _. exec_step.
      destruct (rep 5%nat (TabsNavigate _ _)); exec_step; by exists [].
Qed.

Lemma key_in_locked u s0 : key_of u ∈ ongoingNavigations (locked u s0).
Proof. cbn. set_solver. Qed.

(** C4 fails on the code.  Whenever an activation that has taken the
    lock ends with an exception, the exception is the [ReferenceError] of
    the [catch] block, the key is still in [ongoingNavigations] when the
    function finishes (only the 5 s failsafe removes it), and the global
    flag has been cleared by [finally]. *)
Theorem exception_leaves_lock
    (rep : Replies) newTabId ticketUrl s0 settings e :
  truthy (extractSubdomain ticketUrl) = true ->
  truthy (extractTicketNumber ticketUrl) = true ->
  key_of ticketUrl ∉ ongoingNavigations s0 ->
  rep 0%nat GetAllSettings = Returned settings ->
  let r := run (quiet rep) 0 (reuseZendeskTab newTabId ticketUrl s0) in
  outcome r = Thrown e ->
  e = ReferenceError
  /\ key_of ticketUrl ∈ ongoingNavigations (final r)
  /\ isNavigating (final r) = false.
Proof.
  intros Hsub Hnum Hfree Hset r. subst r.
  unfold reuseZendeskTab. exec_step. rewrite Hset. exec_step.
  rewrite Hsub, Hnum. cbn [negb orb]. exec_step.
  fold (key_of ticketUrl).
  destruct (decide (key_of ticketUrl ∈ _)) as [Hin|_].
  { exfalso. apply Hfree. by cbn in Hin. }
  exec_step.
  fold (locked ticketUrl s0).
  unfold toISOString, after_focus, navigate, url_pathname.
  pose proof (key_in_locked ticketUrl s0) as Hk.
  repeat (exec_step; cbn [after_calls calls final outcome]; try split_reply);
    intros [= <-]; (split; [done|]); (split; [|done]);
    try exact Hk; cbn; set_solver.
Qed.

End Handoff.

Lemma selected_on tabs target noReload :
  candidates 7 tabs = [target] ->
  Selected (replies tabs noReload) 7 ticket_500 tab7_created
    {| noReloadNavigation := noReload |} target.
Proof.
  intros Hc. split.
  - reflexivity.
  - reflexivity.
  - apply not_elem_of_empty.
  - reflexivity.
  - exists tabs, target, []. repeat split. exact Hc.
Defined.

Lemma focused_on tabs target noReload :
  candidates 7 tabs = [target] ->
  valid_time (tab_lastAccessed target) = true ->
  Focused (replies tabs noReload) 7 ticket_500 tab7_created
    {| noReloadNavigation := noReload |} target.
Proof.
  intros Hc Ht. split.
  - by apply selected_on.
  - exact Ht.
  - reflexivity.
  - reflexivity.
Defined.

Lemma same_url_skips_navigation_witness :
  calls (run (quiet (replies [acme_ticket_500] true)) 0
           (reuseZendeskTab (B:=reference) 7 ticket_500 tab7_created))
  = [ GetAllSettings; TabsQuery "*://acme.zendesk.com/*"; TabsActivate 3;
      WindowsFocus 1 ].
Proof.
  destruct (same_url_skips_navigation (B:=reference)
              (replies [acme_ticket_500] true) 7 ticket_500 tab7_created
              {| noReloadNavigation := true |} acme_ticket_500)
    as (_ & H & _).
  - apply selected_on. reflexivity.
  - reflexivity.
  - apply H; reflexivity.
Defined.

Lemma same_url_handoff_aborts_without_last_access_witness :
  calls (run (quiet (replies [untimed_ticket_500] false)) 0
           (reuseZendeskTab (B:=reference) 7 ticket_500 tab7_created))
  = [ GetAllSettings; TabsQuery "*://acme.zendesk.com/*" ]
  /\ outcome (run (quiet (replies [untimed_ticket_500] false)) 0
                (reuseZendeskTab (B:=reference) 7 ticket_500 tab7_created))
     = Thrown ReferenceError
  /\ timers (final (run (quiet (replies [untimed_ticket_500] false)) 0
                      (reuseZendeskTab (B:=reference) 7 ticket_500
                         tab7_created)))
     = [ (3000, ReleaseGlobalLock); (5000, ReleaseNavigationKey "acme-500") ]
  /\ "acme-500"
     ∈ ongoingNavigations
         (final (run (quiet (replies [untimed_ticket_500] false)) 0
                   (reuseZendeskTab (B:=reference) 7 ticket_500 tab7_created))).
Proof.
  destruct (same_url_handoff_aborts_without_last_access (B:=reference)
              (replies [untimed_ticket_500] false) 7 ticket_500 tab7_created
              {| noReloadNavigation := false |} untimed_ticket_500)
    as (H1 & H2 & H3 & H4 & _).
  - apply selected_on. reflexivity.
  - reflexivity.
  - reflexivity.
  - split; [exact H1|]. split; [exact H2|]. split; [exact H3|exact H4].
Defined.

Lemma failed_in_place_navigation_falls_back_witness :
  exists more,
    calls (run (quiet (replies [acme_ticket_80] true)) 0
             (reuseZendeskTab (B:=reference) 7 ticket_500 tab7_created))
    = [ GetAllSettings; TabsQuery "*://acme.zendesk.com/*"; TabsActivate 3;
        WindowsFocus 1 ]
      ++ [ ExecuteScript 3 ticket_500; TabsNavigate 3 ticket_500 ] ++ more.
Proof.
  destruct (failed_in_place_navigation_falls_back (B:=reference)
              (replies [acme_ticket_80] true) 7 ticket_500 tab7_created
              {| noReloadNavigation := true |} acme_ticket_80) as [_ H].
  - apply focused_on; reflexivity.
  - discriminate.
  - apply H.
    + reflexivity.
    + eexists. reflexivity.
    + reflexivity.
Defined.

Lemma exception_leaves_lock_witness :
  outcome (run (quiet (target_closed [acme_ticket_80])) 0
             (reuseZendeskTab (B:=reference) 7 ticket_500 tab7_created))
  = Thrown ReferenceError
  /\ "acme-500"
     ∈ ongoingNavigations
         (final (run (quiet (target_closed [acme_ticket_80])) 0
                   (reuseZendeskTab (B:=reference) 7 ticket_500 tab7_created)))
  /\ isNavigating
       (final (run (quiet (target_closed [acme_ticket_80])) 0
                 (reuseZendeskTab (B:=reference) 7 ticket_500 tab7_created)))
     = false.
Proof.
  split; [reflexivity|].
  apply (exception_leaves_lock (B:=reference) (target_closed [acme_ticket_80])
           7 ticket_500 tab7_created {| noReloadNavigation := false |}
           ReferenceError).
  - reflexivity.
  - reflexivity.
  - apply not_elem_of_empty.
  - reflexivity.
  - reflexivity.
Defined.

(** ** The dispatcher *)

(** A Teams safelink is not on a Zendesk host. *)
Lemma teams_span r :
  starts_with "statics.teams.cdn.office.net/evergreen-assets/safelinks" r = true ->
  exists post, span non_dot r = ("statics", String "." (String "t" post)).
Proof.
  unfold starts_with.
  destruct (strip_prefix _ r) as [x|] eqn:E; [|done]. intros _.
  apply strip_prefix_inv in E as ->. simpl. eauto.
Qed.

Lemma teams_no_host u : test TEAMS_SAFEURL u = true -> host_split u = None.
Proof.
  rewrite test_TEAMS_SAFEURL. unfold host_split.
  destruct (scheme_rest u) as [r|]; [|done].
  intros (post & ->)%teams_span. reflexivity.
Qed.

Lemma host_no_teams u p : host_split u = Some p -> test TEAMS_SAFEURL u = false.
Proof.
  intros H. destruct (test TEAMS_SAFEURL u) eqn:E; [|done].
  apply teams_no_host in E. congruence.
Qed.

Lemma teams_no_subdomain u :
  test TEAMS_SAFEURL u = true -> extractSubdomain u = None.
Proof. intros H. rewrite extractSubdomain_spec. by rewrite teams_no_host. Qed.

Lemma ticket_route_host u :
  test TICKET_ROUTE u = true -> exists p, host_split u = Some p.
Proof.
  rewrite test_TICKET_ROUTE. unfold route_parts.
  destruct (host_split u) as [p|]; [eauto|done].
Qed.

Lemma test_TICKET_ROUTE_nonempty u :
  test TICKET_ROUTE u = true -> truthy (Some u) = true.
Proof. by destruct u. Qed.

Lemma isTabRecentlyNew_true tabId now s :
  fst (isTabRecentlyNew tabId now s) = true ->
  snd (isTabRecentlyNew tabId now s) = s.
Proof.
  unfold isTabRecentlyNew.
  destruct (decide (tabId ∈ navigationTabs s)); [done|].
  destruct (recentNewTabs s !! tabId) as [ts|]; [|done].
  destruct (ts =? 0); [done|]. cbn zeta.
  by destruct (now - ts <=? NEW_TAB_WINDOW_MS).
Qed.

(** The reference [new URL] accepts every Teams safelink and reports its
    host. *)
Lemma reference_parses_safelinks url : parses_safelinks (B:=reference) url.
Proof.
  unfold parses_safelinks. rewrite test_TEAMS_SAFEURL.
  destruct (scheme_rest url) as [r|] eqn:E; [|done].
  apply scheme_rest_inv in E as (sch & Hsch & ->).
  unfold starts_with.
  destruct (strip_prefix _ r) as [rest|] eqn:E2; [|done]. intros _.
  apply strip_prefix_inv in E2 as ->.
  cbn [url_parse reference]. unfold ref_url_parse.
  destruct Hsch as [-> | ->]; simpl;
    destruct (span (fun a => negb (Ascii.eqb a "?" || Ascii.eqb a "#")) rest)
      as [path r2]; simpl;
    destruct (span (fun a => negb (Ascii.eqb a "#")) r2) as [q frag]; simpl;
    eexists; split; reflexivity.
Qed.

Section Dispatch.
Context {B : Builtins}.

Lemma process_when_locked now tabId url s :
  key_of url ∈ ongoingNavigations s ->
  processZendeskNavigation now tabId url s = Done s (Returned tt).
Proof.
  intros Hin. unfold processZendeskNavigation. exec_step. fold (key_of url).
  by destruct (decide (key_of url ∈ ongoingNavigations s)).
Qed.

Lemma early_loop_locked url s :
  early_loop url s = true -> key_of url ∈ ongoingNavigations s.
Proof.
  unfold early_loop. destruct (isZendeskUrl url); [|done].
  destruct (truthy _ && truthy _); [|done].
  by intros ?%bool_decide_eq_true.
Qed.

(** The dispatcher on a ticket URL that is no safelink. *)
Lemma handle_ticket_url now tabId url frameId s :
  test TEAMS_SAFEURL url = false ->
  isTicketUrl url = true ->
  handleNavigation now
    {| nd_tabId := tabId; nd_url := url; nd_frameId := frameId |} s
  = if isNavigating s then Done s (Returned tt)
    else if negb (frameId =? 0) then Done s (Returned tt)
    else processZendeskNavigation now tabId url s.
Proof.
  intros Hteams Hticket. unfold handleNavigation. exec_step.
  cbn [nd_tabId nd_url nd_frameId].
  destruct (isNavigating s); [done|]. destruct (negb (frameId =? 0)); [done|].
  rewrite Hteams, Hticket. cbn [negb].
  destruct (early_loop url s) eqn:E; [|done].
  apply early_loop_locked in E. by rewrite process_when_locked.
Qed.

Lemma ticket_number_is_ticket_url u :
  truthy (extractTicketNumber u) = true -> isTicketUrl u = true.
Proof.
  rewrite extractTicketNumber_spec. unfold isTicketUrl.
  rewrite test_TICKET_ROUTE, test_HASH_TICKET_ROUTE.
  destruct (route_parts "/agent/" u) as [[[sub k] d]|]; [done|].
  by destruct (route_parts "/agent/#/" u) as [[[sub k] d]|].
Qed.



(** The dispatcher on a safelink from which a plain ticket route is
    recovered. *)
Lemma handle_safelink now tabId url z frameId s :
  test TEAMS_SAFEURL url = true ->
  extractZendeskUrlFromTeams url = Some z ->
  test TICKET_ROUTE z = true ->
  handleNavigation now
    {| nd_tabId := tabId; nd_url := url; nd_frameId := frameId |} s
  = if isNavigating s then Done s (Returned tt)
    else if negb (frameId =? 0) then Done s (Returned tt)
    else processZendeskNavigation now tabId z s.
Proof.
  intros Hteams Hz Hticket. unfold handleNavigation. exec_step.
  cbn [nd_tabId nd_url nd_frameId].
  destruct (isNavigating s); [done|]. destruct (negb (frameId =? 0)); [done|].
  rewrite Hteams, Hz, Hticket, (test_TICKET_ROUTE_nonempty _ Hticket).
  cbn [andb].
  unfold early_loop. rewrite (teams_no_subdomain _ Hteams). cbn [truthy andb].
  by destruct (isZendeskUrl url).
Qed.

(** C10, amended.  For a navigation event whose URL is a Teams safelink
    from which [extractZendeskUrlFromTeams] recovers a URL [z] of the
    plain path route ([TICKET_ROUTE]), the dispatcher does exactly what it
    does on the same event with URL [z]: the two activations are the same
    program, with the same lock and recency checks and the same
    hand-off. *)
Theorem safelink_is_processed_as_its_ticket_url now tabId url z frameId s :
  extractZendeskUrlFromTeams url = Some z ->
  test TICKET_ROUTE z = true ->
  handleNavigation now
    {| nd_tabId := tabId; nd_url := url; nd_frameId := frameId |} s
  = handleNavigation now
      {| nd_tabId := tabId; nd_url := z; nd_frameId := frameId |} s.
Proof.
  intros Hz Hticket.
  assert (test TEAMS_SAFEURL url = true) as Hteams.
  { unfold extractZendeskUrlFromTeams in Hz.
    by destruct (test TEAMS_SAFEURL url). }
  rewrite (handle_safelink _ _ _ z) by done.
  destruct (ticket_route_host _ Hticket) as [p Hp].
  rewrite handle_ticket_url; [done|by eapply host_no_teams|].
  unfold isTicketUrl. by rewrite Hticket.
Qed.

(** A URL that [isRestrictedZendeskUrl] accepts is no Teams safelink:
    its host ends in [.zendesk.com]. *)
Lemma restricted_no_teams url :
  parses_safelinks url ->
  isRestrictedZendeskUrl url = true ->
  test TEAMS_SAFEURL url = false.
Proof.
  intros Hlaw Hr. destruct (test TEAMS_SAFEURL url) eqn:Ht; [|done].
  destruct (Hlaw Ht) as (u & Hu & Hhost).
  unfold isRestrictedZendeskUrl in Hr. rewrite Hu, Hhost in Hr.
  by vm_compute in Hr.
Qed.

(** C2, amended.  On a navigation event whose URL
    [isRestrictedZendeskUrl] classifies as restricted, the dispatcher
    starts a hand-off only when the URL is also a ticket URL.  When the
    URL matches neither ticket route the dispatcher returns at once: no
    call, no hand-off, no change of the tracking state.  When it matches
    one, the event is dispatched like that of any ticket URL: for a
    main-frame event of a recent tab, with no hand-off running and the
    key free, the dispatcher goes on as [reuseZendeskTab].  The built-in
    [new URL] is assumed to report the host of a Teams safelink. *)
Theorem restricted_url_starts_handoff_only_as_ticket
    now tabId url frameId s :
  parses_safelinks url ->
  isRestrictedZendeskUrl url = true ->
  (isTicketUrl url = false ->
   handleNavigation now
     {| nd_tabId := tabId; nd_url := url; nd_frameId := frameId |} s
   = Done s (Returned tt))
  /\ (isTicketUrl url = true ->
      frameId = 0 ->
      isNavigating s = false ->
      key_of url ∉ ongoingNavigations s ->
      fst (isTabRecentlyNew tabId now s) = true ->
      handleNavigation now
        {| nd_tabId := tabId; nd_url := url; nd_frameId := frameId |} s
      = reuseZendeskTab tabId url s).
Proof.
  intros Hlaw Hr. pose proof (restricted_no_teams url Hlaw Hr) as Hteams.
  split.
  - intros Hticket. unfold handleNavigation. exec_step.
    cbn [nd_tabId nd_url nd_frameId].
    destruct (isNavigating s); [done|].
    destruct (negb (frameId =? 0)); [done|].
    destruct (early_loop url s); [done|].
    by rewrite Hteams, Hticket.
  - intros Hticket -> Hidle Hfree Hnew.
    rewrite handle_ticket_url by done.
    rewrite Hidle. cbn [Z.eqb negb].
    unfold processZendeskNavigation. exec_step. fold (key_of url).
    destruct (decide (key_of url ∈ ongoingNavigations s)); [done|].
    unfold call_sync. cbn [bind bindP]. rewrite Hnew.
    by rewrite isTabRecentlyNew_true.
Qed.

End Dispatch.


(** C2, as stated, fails: the print view of a ticket under [/agent/] is
    restricted for [isRestrictedZendeskUrl] and is a ticket route for the
    dispatcher, which starts a hand-off when a freshly created tab
    completes a navigation to it. *)
Lemma restricted_print_view_starts_handoff :
  isRestrictedZendeskUrl (B:=reference)
    "https://acme.zendesk.com/agent/tickets/123/print" = true
  /\ calls (run (quiet (replies [acme_ticket_80] false)) 0
              (handleNavigation (B:=reference) 1500
                 (navigation 7 "https://acme.zendesk.com/agent/tickets/123/print")
                 tab7_created))
     = [ GetAllSettings; TabsQuery "*://acme.zendesk.com/*"; TabsActivate 3;
         WindowsFocus 1;
         TabsNavigate 3 "https://acme.zendesk.com/agent/tickets/123" ].
Proof. by vm_compute. Qed.

Lemma restricted_url_starts_handoff_only_as_ticket_witness :
  handleNavigation (B:=reference) 1500
    (navigation 7 "https://acme.zendesk.com/#/agent/talk") tab7_created
  = Done tab7_created (Returned tt)
  /\ handleNavigation (B:=reference) 1500
       (navigation 7 "https://acme.zendesk.com/agent/tickets/123/print")
       tab7_created
     = reuseZendeskTab (B:=reference) 7
         "https://acme.zendesk.com/agent/tickets/123/print" tab7_created.
Proof.
  split.
  - apply (restricted_url_starts_handoff_only_as_ticket (B:=reference) 1500 7
             "https://acme.zendesk.com/#/agent/talk" 0 tab7_created).
    + intros H. by vm_compute in H.
    + reflexivity.
    + reflexivity.
  - apply (restricted_url_starts_handoff_only_as_ticket (B:=reference) 1500 7
             "https://acme.zendesk.com/agent/tickets/123/print" 0 tab7_created).
    + intros H. by vm_compute in H.
    + reflexivity.
    + reflexivity.
    + reflexivity.
    + reflexivity.
    + apply not_elem_of_empty.
    + reflexivity.
Defined.

(** C10, as stated, fails: a safelink that wraps the hash route of
    ticket 500, a ticket URL for the dispatcher, is ignored, whereas the
    navigation of the same tab to that URL starts a hand-off. *)
Lemma safelink_to_hash_route_is_ignored :
  test TEAMS_SAFEURL
    (safelink "https%3A%2F%2Facme.zendesk.com%2Fagent%2F%23%2Ftickets%2F500")
  = true
  /\ extractZendeskUrlFromTeams (B:=reference)
       (safelink "https%3A%2F%2Facme.zendesk.com%2Fagent%2F%23%2Ftickets%2F500")
     = Some "https://acme.zendesk.com/agent/#/tickets/500"
  /\ isTicketUrl "https://acme.zendesk.com/agent/#/tickets/500" = true
  /\ calls (run (quiet (replies [acme_ticket_80] false)) 0
              (handleNavigation (B:=reference) 1500
                 (navigation 7
                    (safelink
                       "https%3A%2F%2Facme.zendesk.com%2Fagent%2F%23%2Ftickets%2F500"))
                 tab7_created))
     = []
  /\ calls (run (quiet (replies [acme_ticket_80] false)) 0
              (handleNavigation (B:=reference) 1500
                 (navigation 7 "https://acme.zendesk.com/agent/#/tickets/500")
                 tab7_created))
     = [ GetAllSettings; TabsQuery "*://acme.zendesk.com/*"; TabsActivate 3;
         WindowsFocus 1; TabsNavigate 3 ticket_500 ].
Proof. by vm_compute. Qed.

Lemma safelink_is_processed_as_its_ticket_url_witness :
  handleNavigation (B:=reference) 1500
    (navigation 7
       (safelink "https%3A%2F%2Facme.zendesk.com%2Fagent%2Ftickets%2F500"))
    tab7_created
  = handleNavigation (B:=reference) 1500 (navigation 7 ticket_500) tab7_created.
Proof.
  apply (safelink_is_processed_as_its_ticket_url (B:=reference)); reflexivity.
Defined.

(** ** The scenarios of the specification, run *)

(** Scenario A: tab 7, just created, completes a navigation to ticket
    500 while tab 3 shows ticket 80.  Tab 3 is focused and updated to
    ticket 500, and the callback armed for tab 7 removes it. *)
Example scenario_A :
  calls (run (quiet (replies [acme_ticket_80] false)) 0
           (handleNavigation (B:=reference) 1500 (navigation 7 ticket_500)
              tab7_created))
  = [ GetAllSettings; TabsQuery "*://acme.zendesk.com/*"; TabsActivate 3;
      WindowsFocus 1; TabsNavigate 3 ticket_500 ]
  /\ calls (run (quiet (replies [acme_ticket_80] false)) 0
              (fire (CloseDuplicate 7) tab7_created))
     = [TabsGet 7; TabsRemove 7].
Proof. by vm_compute. Qed.

(** A tab that has been open for longer than the window starts nothing. *)
Example old_tab_is_ignored :
  calls (run (quiet (replies [acme_ticket_80] false)) 0
           (handleNavigation (B:=reference) 6001 (navigation 7 ticket_500)
              tab7_created))
  = [].
Proof. by vm_compute. Qed.

(** * Part III.  Further properties of the code *)

Import Housekeeping.

(** ** More on the tab tracker *)

(** X1.  A tab marked new at time [t0] (a non-zero time value), and not
    registered as a navigation target, is reported recent at every time
    up to [t0 + 5000] inclusive, and the query leaves the state as it
    is. *)
Theorem fresh_tab_is_recent_within_window tabId t0 now s :
  tabId ∉ navigationTabs s ->
  t0 <> 0 ->
  now - t0 <= NEW_TAB_WINDOW_MS ->
  isTabRecentlyNew tabId now (markTabNew tabId t0 s)
  = (true, markTabNew tabId t0 s).
Proof.
  intros Hnav Ht0 Hage. unfold isTabRecentlyNew.
  destruct (decide (tabId ∈ navigationTabs (markTabNew tabId t0 s))) as [Hin|_];
    [by cbn in Hin|].
  cbn [markTabNew set_recentNewTabs recentNewTabs].
  rewrite lookup_insert_eq.
  apply Z.eqb_neq in Ht0 as ->. cbn zeta.
  by apply Z.leb_le in Hage as ->.
Qed.

Lemma fresh_tab_is_recent_within_window_witness :
  isTabRecentlyNew 7 6000 (markTabNew 7 1000 initial)
  = (true, markTabNew 7 1000 initial).
Proof.
  apply (fresh_tab_is_recent_within_window 7 1000 6000 initial).
  - apply not_elem_of_empty.
  - lia.
  - unfold NEW_TAB_WINDOW_MS. lia.
Defined.

(** X2.  Queried more than 5000 ms after it was marked, the tab is
    reported not recent, and from then on it is reported not recent at
    every time, also at one that lies inside the window, until it is
    marked again: the query has deleted the entry (an entry with the
    time value 0 is kept, and counts as missing). *)
Theorem expired_tab_is_evicted tabId t0 now s :
  tabId ∉ navigationTabs s ->
  now - t0 > NEW_TAB_WINDOW_MS ->
  let q := isTabRecentlyNew tabId now (markTabNew tabId t0 s) in
  fst q = false
  /\ (forall now', isTabRecentlyNew tabId now' (snd q) = (false, snd q))
  /\ (t0 <> 0 -> recentNewTabs (snd q) !! tabId = None).
Proof.
  intros Hnav Hage q.
  assert (fst q = false
          /\ navigationTabs (snd q) = navigationTabs s
          /\ (recentNewTabs (snd q) !! tabId = None
              \/ t0 = 0 /\ recentNewTabs (snd q) !! tabId = Some 0))
    as (Hq & Hn & Hgone).
  { subst q. unfold isTabRecentlyNew.
    destruct (decide (tabId ∈ navigationTabs (markTabNew tabId t0 s)))
      as [Hin|_]; [by cbn in Hin|].
    cbn [markTabNew set_recentNewTabs recentNewTabs].
    rewrite lookup_insert_eq.
    destruct (t0 =? 0) eqn:E0.
    { apply Z.eqb_eq in E0 as ->. cbn. rewrite lookup_insert_eq. auto. }
    cbn zeta.
    assert ((now - t0 <=? NEW_TAB_WINDOW_MS) = false) as ->
      by (apply Z.leb_gt; lia).
    cbn. rewrite lookup_delete_eq. auto. }
  split; [done|]. split.
  - intros now'. unfold isTabRecentlyNew.
    destruct (decide (tabId ∈ navigationTabs (snd q))) as [Hin|_]; [done|].
    by destruct Hgone as [-> | [_ ->]].
  - intros Ht0. by destruct Hgone as [? | [? _]].
Qed.

Lemma expired_tab_is_evicted_witness :
  fst (isTabRecentlyNew 7 6001 (markTabNew 7 1000 initial)) = false
  /\ (forall now',
        isTabRecentlyNew 7 now'
          (snd (isTabRecentlyNew 7 6001 (markTabNew 7 1000 initial)))
        = (false, snd (isTabRecentlyNew 7 6001 (markTabNew 7 1000 initial))))
  /\ (1000 <> 0 ->
      recentNewTabs (snd (isTabRecentlyNew 7 6001 (markTabNew 7 1000 initial)))
        !! 7 = None).
Proof.
  apply (expired_tab_is_evicted 7 1000 6001 initial).
  - apply not_elem_of_empty.
  - unfold NEW_TAB_WINDOW_MS. lia.
Defined.

(** X3.  Once a tab is forgotten, by [clearNavigationTab] or by the
    [onRemoved] listener, it is in neither table and is reported not
    recent at every time; what the tracker answers for any other tab is
    not affected. *)
Theorem forgotten_tab_is_not_recent tabId now s :
  clearNavigationTab tabId s = onRemoved tabId s
  /\ recentNewTabs (onRemoved tabId s) !! tabId = None
  /\ (tabId ∉ navigationTabs (onRemoved tabId s))
  /\ isTabRecentlyNew tabId now (onRemoved tabId s)
     = (false, onRemoved tabId s)
  /\ forall other, other <> tabId ->
       fst (isTabRecentlyNew other now (onRemoved tabId s))
       = fst (isTabRecentlyNew other now s).
Proof.
  split; [done|]. split; [cbn; by rewrite lookup_delete_eq|].
  split; [cbn; apply not_elem_of_difference; right; by apply elem_of_singleton|].
  split.
  - unfold isTabRecentlyNew.
    destruct (decide (tabId ∈ navigationTabs (onRemoved tabId s))); [done|].
    cbn. by rewrite lookup_delete_eq.
  - intros other Hne. unfold isTabRecentlyNew.
    cbn [onRemoved set_recentNewTabs set_navigationTabs recentNewTabs
         navigationTabs].
    rewrite lookup_delete_ne by done.
    destruct (decide (other ∈ navigationTabs s ∖ {[tabId]})) as [Hin|Hout];
      destruct (decide (other ∈ navigationTabs s)) as [Hin'|Hout'];
      [done| |exfalso|].
    { apply elem_of_difference in Hin as [? _]. done. }
    { apply Hout. apply elem_of_difference. split; [done|].
      by intros ?%elem_of_singleton. }
    destruct (recentNewTabs s !! other) as [ts|]; [|done].
    destruct (ts =? 0); [done|]. cbn zeta.
    by destruct (now - ts <=? NEW_TAB_WINDOW_MS).
Qed.

(** ** The choice of the target tab *)

Lemma targetTab_in first others : In (targetTab first others) (first :: others).
Proof.
  unfold targetTab. revert first.
  induction others as [|b others IH]; intros first; simpl; [auto|].
  destruct (lastAccessed_or_0 first >? lastAccessed_or_0 b).
  - destruct (IH first) as [<-|?]; auto.
  - destruct (IH b) as [<-|?]; auto.
Qed.

Lemma targetTab_ge first others :
  lastAccessed_or_0 first <= lastAccessed_or_0 (targetTab first others).
Proof.
  unfold targetTab. revert first.
  induction others as [|b others IH]; intros first; simpl; [lia|].
  destruct (lastAccessed_or_0 first >? lastAccessed_or_0 b) eqn:E.
  - apply IH.
  - specialize (IH b). rewrite Z.gtb_ltb in E. apply Z.ltb_ge in E. lia.
Qed.

(** X4.  The tab chosen as target is one of the tabs the query returned,
    it is not the new tab, and its URL contains [/agent/]. *)
Theorem target_is_a_candidate newTabId allTabs first others :
  candidates newTabId allTabs = first :: others ->
  In (targetTab first others) allTabs
  /\ tab_id (targetTab first others) <> newTabId
  /\ includes "/agent/" (tab_url (targetTab first others)) = true.
Proof.
  intros Hc. pose proof (targetTab_in first others) as Hin.
  rewrite <- Hc in Hin. apply filter_In in Hin as [Hin Hf].
  apply andb_true_iff in Hf as [Hid Hurl].
  split; [done|]. split; [|done].
  apply negb_true_iff in Hid. by apply Z.eqb_neq.
Qed.

Lemma target_is_a_candidate_witness :
  In (targetTab acme_ticket_80 []) [acme_ticket_80]
  /\ tab_id (targetTab acme_ticket_80 []) <> 7
  /\ includes "/agent/" (tab_url (targetTab acme_ticket_80 [])) = true.
Proof.
  apply (target_is_a_candidate 7 [acme_ticket_80] acme_ticket_80 []).
  reflexivity.
Defined.

(** X5.  The target is a most recently accessed candidate: no candidate
    has a greater [lastAccessed], an absent one counting as 0. *)
Theorem target_is_most_recently_accessed first others :
  Forall
    (fun c => lastAccessed_or_0 c <= lastAccessed_or_0 (targetTab first others))
    (first :: others).
Proof.
  unfold targetTab. revert first.
  induction others as [|b others IH]; intros first; simpl.
  - constructor; [lia|constructor].
  - pose proof (targetTab_ge first others) as Hf.
    pose proof (targetTab_ge b others) as Hb. unfold targetTab in Hf, Hb.
    destruct (lastAccessed_or_0 first >? lastAccessed_or_0 b) eqn:E.
    + specialize (IH first). inversion IH as [|? ? H1 H2]; subst.
      constructor; [done|]. constructor; [|done].
      rewrite Z.gtb_ltb in E. apply Z.ltb_lt in E. lia.
    + specialize (IH b). inversion IH as [|? ? H1 H2]; subst.
      rewrite Z.gtb_ltb in E. apply Z.ltb_ge in E.
      constructor; [lia|]. by constructor.
Qed.

Lemma last_cons_default {A} (a : A) l d d' :
  List.last (a :: l) d = List.last (a :: l) d'.
Proof.
  revert a. induction l as [|b l IH]; intros a; [done|].
  change (List.last (b :: l) d = List.last (b :: l) d'). apply IH.
Qed.

(** X6.  Among candidates that are equally recent the last one in the
    order of the query wins: in particular, on a host that reports no
    [lastAccessed] the target is the last candidate. *)
Theorem target_of_equals_is_last first others :
  Forall (fun c => lastAccessed_or_0 c = lastAccessed_or_0 first) others ->
  targetTab first others = List.last others first.
Proof.
  unfold targetTab. revert first.
  induction others as [|b others IH]; intros first Hall; [done|].
  inversion Hall as [|? ? Hb Hrest]; subst.
  cbn [fold_left]. rewrite Hb.
  assert ((lastAccessed_or_0 first >? lastAccessed_or_0 first) = false) as ->.
  { rewrite Z.gtb_ltb. apply Z.ltb_irrefl. }
  rewrite IH.
  - destruct others as [|c others]; [done|].
    change (List.last (c :: others) b = List.last (c :: others) first).
    apply last_cons_default.
  - eapply Forall_impl; [exact Hrest|]. intros c Hc. simpl in Hc. congruence.
Qed.

Lemma target_of_equals_is_last_witness :
  targetTab acme_ticket_80 [acme_ticket_500]
  = List.last [acme_ticket_500] acme_ticket_80.
Proof.
  apply (target_of_equals_is_last acme_ticket_80 [acme_ticket_500]).
  constructor; [reflexivity|constructor].
Defined.

(** ** More on the classifier *)

Lemma includes_app needle pre post :
  includes needle (pre +:+ needle +:+ post) = true.
Proof.
  induction pre as [|a pre IH]; simpl.
  - assert (starts_with needle (needle +:+ post) = true) as H.
    { unfold starts_with. by rewrite strip_prefix_app. }
    remember (needle +:+ post) as t. destruct t; simpl; by rewrite H.
  - by destruct (starts_with needle (String a (pre +:+ needle +:+ post))).
Qed.

Lemma append_assoc (a b c : string) : (a +:+ b) +:+ c = a +:+ b +:+ c.
Proof. induction a; simpl; [done|]. by f_equal. Qed.

Lemma host_is_zendesk u p : host_split u = Some p -> isZendeskUrl u = true.
Proof.
  destruct p as [sub rest]. intros (_ & sch & Hsch & ->)%host_split_inv.
  assert (includes "zendesk.com" (sch +:+ sub +:+ ".zendesk.com" +:+ rest) = true)
    as Hinc.
  { change (".zendesk.com" +:+ rest) with ("." +:+ "zendesk.com" +:+ rest).
    rewrite <- (append_assoc sub "."), <- (append_assoc sch).
    apply includes_app. }
  unfold isZendeskUrl. by destruct Hsch as [-> | ->].
Qed.

Lemma isTicketUrl_parts u :
  isTicketUrl u = true ->
  exists area sub k d,
    (area = "/agent/" \/ area = "/agent/#/")
    /\ route_parts area u = Some (sub, k, d).
Proof.
  unfold isTicketUrl. rewrite test_TICKET_ROUTE, test_HASH_TICKET_ROUTE.
  destruct (route_parts "/agent/" u) as [[[sub k] d]|] eqn:E1.
  { intros _. exists "/agent/", sub, k, d. auto. }
  destruct (route_parts "/agent/#/" u) as [[[sub k] d]|] eqn:E2; [|done].
  intros _. exists "/agent/#/", sub, k, d. auto.
Qed.

Lemma ticket_url_key u :
  isTicketUrl u = true ->
  exists sub n,
    extractSubdomain u = Some sub /\ extractTicketNumber u = Some n
    /\ is_label sub /\ n <> "" /\ all_chars is_digit n = true
    /\ key_of u = sub +:+ "-" +:+ n.
Proof.
  intros Ht.
  destruct (isTicketUrl_parts _ Ht) as (area & sub & k & d & Ha & Hr).
  destruct (route_parts_inv _ _ _ _ _ Hr) as (Hl & Hd & Hall & rest & Hh).
  assert (extractSubdomain u = Some sub) as Hsub.
  { rewrite extractSubdomain_spec. by rewrite Hh. }
  destruct (extractTicketNumber u) as [n|] eqn:En.
  + exists sub, n. pose proof (extractTicketNumber_inv _ _ En) as [? ?].
    unfold key_of. rewrite Hsub, En. done.
  + exfalso. rewrite extractTicketNumber_spec in En.
    destruct Ha as [-> | ->]; rewrite Hr in En; [done|].
    by destruct (route_parts "/agent/" u) as [[[? ?] ?]|].
Qed.

(** X7.  The classifier functions agree: a URL is a ticket URL exactly
    when a ticket number is extracted from it, and then a subdomain is
    extracted too, the URL passes the [zendesk.com] test of the early
    loop detection, and the key of the hand-off is the subdomain label,
    a hyphen and the digits. *)
Theorem ticket_url_has_key_parts u :
  (isTicketUrl u = true <-> truthy (extractTicketNumber u) = true)
  /\ (isTicketUrl u = true ->
      isZendeskUrl u = true
      /\ exists sub n,
           extractSubdomain u = Some sub /\ extractTicketNumber u = Some n
           /\ is_label sub /\ n <> "" /\ all_chars is_digit n = true
           /\ key_of u = sub +:+ "-" +:+ n).
Proof.
  split.
  - split; [|apply ticket_number_is_ticket_url].
    intros (sub & n & _ & -> & _ & Hn & _)%ticket_url_key. by destruct n.
  - intros Ht. split; [|by apply ticket_url_key].
    destruct (isTicketUrl_parts _ Ht) as (area & sub & k & d & _ & Hr).
    destruct (route_parts_inv _ _ _ _ _ Hr) as (_ & _ & _ & rest & Hh).
    by eapply host_is_zendesk.
Qed.

Lemma ticket_url_has_key_parts_witness :
  isZendeskUrl ticket_500 = true
  /\ exists sub n,
       extractSubdomain ticket_500 = Some sub
       /\ extractTicketNumber ticket_500 = Some n
       /\ is_label sub /\ n <> "" /\ all_chars is_digit n = true
       /\ key_of ticket_500 = sub +:+ "-" +:+ n.
Proof.
  apply (ticket_url_has_key_parts ticket_500). reflexivity.
Defined.

(** X8.  No URL matches both routes: a URL of the plain path route is
    not one of the hash route. *)
Theorem routes_are_exclusive u :
  test TICKET_ROUTE u && test HASH_TICKET_ROUTE u = false.
Proof.
  rewrite test_TICKET_ROUTE, test_HASH_TICKET_ROUTE. unfold route_parts.
  destruct (host_split u) as [[sub rest]|]; [|done].
  destruct (strip_prefix "/agent/#/" rest) as [r'|] eqn:E2.
  - apply strip_prefix_inv in E2 as ->. simpl.
    destruct (ticket_tail r') as [[? ?]|]; done.
  - destruct (strip_prefix "/agent/" rest) as [r|]; [|done].
    by destruct (ticket_tail r) as [[? ?]|].
Qed.

(** The key determines the label and the digits. *)
Lemma key_parts_injective sub sub' n n' :
  all_chars is_digit n = true -> all_chars is_digit n' = true ->
  sub +:+ "-" +:+ n = sub' +:+ "-" +:+ n' -> sub = sub' /\ n = n'.
Proof.
  intros Hn Hn'.
  assert (forall s d d', all_chars is_digit d = true ->
            d = s +:+ "-" +:+ d' -> False) as Hno.
  { intros s. induction s as [|a s IH]; intros d d' Hd ->; simpl in Hd.
    - done.
    - apply andb_true_iff in Hd as [_ Hd]. by eapply IH. }
  revert sub'. induction sub as [|a sub IH]; intros [|b sub']; simpl.
  - by intros [= ->].
  - intros [= <- H]. exfalso. exact (Hno _ _ _ Hn H).
  - intros [= -> H]. exfalso. exact (Hno _ _ _ Hn' (eq_sym H)).
  - intros [= -> H]. destruct (IH _ H) as [-> ->]. done.
Qed.

(** X9.  Two ticket URLs have the same key exactly when the same
    subdomain and the same ticket number are extracted from them: the
    lock of one resource never stands for another. *)
Theorem navigation_key_is_injective u u' :
  isTicketUrl u = true -> isTicketUrl u' = true ->
  (key_of u = key_of u'
   <-> extractSubdomain u = extractSubdomain u'
       /\ extractTicketNumber u = extractTicketNumber u').
Proof.
  intros Hu Hu'.
  destruct (ticket_url_key u Hu) as (sub & n & Hs & Hn & _ & _ & Hd & Hk).
  destruct (ticket_url_key u' Hu') as (sub' & n' & Hs' & Hn' & _ & _ & Hd' & Hk').
  rewrite Hk, Hk', Hs, Hs', Hn, Hn'. split.
  - intros [-> ->]%key_parts_injective; done.
  - by intros [[= ->] [= ->]].
Qed.

Lemma navigation_key_is_injective_witness :
  key_of ticket_500 = key_of "http://acme.zendesk.com/agent/#/views/500?x"
  <-> extractSubdomain ticket_500
      = extractSubdomain "http://acme.zendesk.com/agent/#/views/500?x"
      /\ extractTicketNumber ticket_500
         = extractTicketNumber "http://acme.zendesk.com/agent/#/views/500?x".
Proof.
  apply (navigation_key_is_injective ticket_500
           "http://acme.zendesk.com/agent/#/views/500?x"); reflexivity.
Defined.

(** ** More on the hand-off *)

Lemma finally_clears_flag {A} (p : Prog A) env n :
  isNavigating
    (final (run env n (finallyP p (modify (set_isNavigating false))))) = false.
Proof.
  revert n. induction p as [s r|s c k IH]; intros n.
  - by destruct r.
  - cbn [finallyP run after_calls final]. apply IH.
Qed.

Lemma finally_keeps_outcome {A} (p : Prog A) env n f :
  outcome (run env n (finallyP p (modify f))) = outcome (run env n p).
Proof.
  revert n. induction p as [s r|s c k IH]; intros n.
  - by destruct r.
  - cbn [finallyP run after_calls outcome]. apply IH.
Qed.

Lemma catch_block_outcome (p : Prog unit) env n :
  outcome (run env n (catchP p catch_block)) = Returned tt
  \/ outcome (run env n (catchP p catch_block)) = Thrown ReferenceError.
Proof.
  revert n. induction p as [s r|s c k IH]; intros n.
  - destruct r as [[]|e]; cbn; auto.
  - cbn [catchP run after_calls outcome]. apply IH.
Qed.

Lemma guarded_outcome (p : Prog unit) env n f :
  outcome (run env n (finallyP (catchP p catch_block) (modify f))) = Returned tt
  \/ outcome (run env n (finallyP (catchP p catch_block) (modify f)))
     = Thrown ReferenceError.
Proof. rewrite finally_keeps_outcome. apply catch_block_outcome. Qed.

Section HandoffMore.
Context {B : Builtins}.

(** X10.  Whatever the host answers and whatever other handlers do at
    the suspensions, an activation of [reuseZendeskTab] finishes with the
    global flag cleared, and it either returns or throws the
    [ReferenceError] of its [catch] block: no rejection of a host call
    reaches the caller as such. *)
Theorem activation_always_clears_flag env newTabId ticketUrl s0 :
  let r := run env 0 (reuseZendeskTab newTabId ticketUrl s0) in
  isNavigating (final r) = false
  /\ (outcome r = Returned tt \/ outcome r = Thrown ReferenceError).
Proof.
  cbn zeta. unfold reuseZendeskTab.
  cbn [bind modify bindP try_finally try_catch]. split.
  - apply finally_clears_flag.
  - apply guarded_outcome.
Qed.

(** The activation up to the resumption after the query. *)
Lemma queried_run (rep : Replies) newTabId ticketUrl s0 settings :
  truthy (extractSubdomain ticketUrl) = true ->
  truthy (extractTicketNumber ticketUrl) = true ->
  key_of ticketUrl ∉ ongoingNavigations s0 ->
  rep 0%nat GetAllSettings = Returned settings ->
  run (quiet rep) 0 (reuseZendeskTab newTabId ticketUrl s0)
  = after_calls
      [ GetAllSettings; TabsQuery (query_pattern (extractSubdomain ticketUrl)) ]
      (run (quiet rep) 2
         (finallyP
            (catchP
               (bindP
                  (Done (locked ticketUrl s0)
                     (rep 1%nat
                        (TabsQuery (query_pattern (extractSubdomain ticketUrl)))))
                  (fun allTabs =>
                     match candidates newTabId allTabs with
                     | [] => ret tt
                     | first :: others =>
                         let target := targetTab first others in
                         (toISOString (tab_lastAccessed target) ;;;
                          await (TabsActivate (tab_id target)) ;;;
                          await (WindowsFocus (tab_windowId target)) ;;;
                          after_focus (noReloadNavigation settings) newTabId
                            (key_of ticketUrl) target (clean_of ticketUrl))%async
                     end))
               catch_block)
            (modify (set_isNavigating false)))).
Proof.
  intros Hsub Hnum Hfree Hset.
  unfold reuseZendeskTab. exec_step. rewrite Hset. exec_step.
  rewrite Hsub, Hnum. cbn [negb orb]. exec_step.
  fold (key_of ticketUrl).
  destruct (decide (key_of ticketUrl ∈ _)) as [Hin|_].
  { exfalso. apply Hfree. by cbn in Hin. }
  exec_step. rewrite !after_calls_app. reflexivity.
Qed.

(** X11.  When the query finds no candidate (no other tab of the
    subdomain shows an agent page), the activation returns normally
    after the settings read and the query, issuing no other call; the
    global flag is cleared, but the key of the ticket stays in
    [ongoingNavigations]: only the 5 s failsafe releases it. *)
Theorem no_candidate_keeps_lock
    (rep : Replies) newTabId ticketUrl s0 settings allTabs :
  truthy (extractSubdomain ticketUrl) = true ->
  truthy (extractTicketNumber ticketUrl) = true ->
  key_of ticketUrl ∉ ongoingNavigations s0 ->
  rep 0%nat GetAllSettings = Returned settings ->
  rep 1%nat (TabsQuery (query_pattern (extractSubdomain ticketUrl)))
  = Returned allTabs ->
  candidates newTabId allTabs = [] ->
  let r := run (quiet rep) 0 (reuseZendeskTab newTabId ticketUrl s0) in
  calls r
  = [ GetAllSettings; TabsQuery (query_pattern (extractSubdomain ticketUrl)) ]
  /\ outcome r = Returned tt
  /\ final r = set_isNavigating false (locked ticketUrl s0)
  /\ key_of ticketUrl ∈ ongoingNavigations (final r).
Proof.
  intros Hsub Hnum Hfree Hset Hq Hc r. subst r.
  rewrite (queried_run rep newTabId ticketUrl s0 settings) by done.
  rewrite Hq. cbn [bindP]. rewrite Hc. exec_step.
  cbn [after_calls calls final outcome app].
  repeat split. apply key_in_locked.
Qed.

(** X12.  A hand-off to a target that shows another URL and whose
    navigation step succeeds (the URL update resolves, or the injected
    script reports success) returns normally and leaves the lock table
    as it found it, the global flag cleared and the tracking of the new
    tab untouched; it has armed the two failsafe timers and, last, the
    100 ms callback that closes the new tab. *)
Theorem completed_handoff_restores_locks
    (rep : Replies) newTabId ticketUrl s0 settings target :
  Focused rep newTabId ticketUrl s0 settings target ->
  tab_url target <> clean_of ticketUrl ->
  (noReloadNavigation settings = false
   /\ rep 4%nat (TabsNavigate (tab_id target) (clean_of ticketUrl)) = Returned tt)
  \/ (noReloadNavigation settings = true
      /\ is_Some (url_parse (tab_url target))
      /\ reports_success
           (rep 4%nat (ExecuteScript (tab_id target) (clean_of ticketUrl)))
         = true) ->
  let r := run (quiet rep) 0 (reuseZendeskTab newTabId ticketUrl s0) in
  outcome r = Returned tt
  /\ ongoingNavigations (final r) = ongoingNavigations s0
  /\ isNavigating (final r) = false
  /\ timers (final r)
     = timers s0 ++ [ (3000, ReleaseGlobalLock);
                      (5000, ReleaseNavigationKey (key_of ticketUrl));
                      (100, CloseDuplicate newTabId) ]
  /\ recentNewTabs (final r) = recentNewTabs s0
  /\ navigationTabs (final r) = navigationTabs s0.
Proof.
  intros Hf Hdiff Hnav r. subst r.
  pose proof (se_free _ _ _ _ _ _ (fo_selected _ _ _ _ _ _ Hf)) as Hfree.
  rewrite (focused_run _ _ _ _ _ _ Hf).
  unfold after_focus. apply String.eqb_neq in Hdiff. rewrite Hdiff.
  unfold navigate.
  assert (({[key_of ticketUrl]} ∪ ongoingNavigations s0) ∖ {[key_of ticketUrl]}
          = ongoingNavigations s0) as Hrestore.
  { apply set_eq. intros x. rewrite elem_of_difference, elem_of_union.
    rewrite elem_of_singleton. split; [tauto|].
    intros Hx. split; [tauto|]. by intros ->. }
  destruct Hnav as [[-> Hu] | (-> & [parts Hparts] & Hok)].
  - exec_step. rewrite Hu. exec_step.
    cbn [after_calls calls final outcome].
    split; [done|]. split; [exact Hrestore|]. split; [done|].
    split; [|done]. cbn. by rewrite <- !app_assoc.
  - unfold url_pathname. rewrite Hparts. exec_step.
    unfold reports_success in Hok.
    destruct (rep 4%nat (ExecuteScript _ _)) as [results|e]; [|done].
    exec_step. destruct (script_result results) as [result|]; [|done].
    rewrite Hok. exec_step.
    cbn [after_calls calls final outcome].
    split; [done|]. split; [exact Hrestore|]. split; [done|].
    split; [|done]. cbn. by rewrite <- !app_assoc.
Qed.

(** X13.  Every call of a hand-off that has selected its target is the
    settings read, the query, or a call on the target tab or on its
    window; the target is not the new tab.  So the activation itself
    never navigates, activates, looks up or removes the new tab or any
    third tab, however the host answers. *)
Theorem handoff_acts_on_target_only
    (rep : Replies) newTabId ticketUrl s0 settings target :
  Selected rep newTabId ticketUrl s0 settings target ->
  let r := run (quiet rep) 0 (reuseZendeskTab newTabId ticketUrl s0) in
  Forall (fun c => on_target target c = true) (calls r)
  /\ tab_id target <> newTabId.
Proof.
  intros [Hsub Hnum Hfree Hset (allTabs & first & others & Hq & Hc & ->)] r.
  subst r. split.
  - rewrite (queried_run rep newTabId ticketUrl s0 settings) by done.
    rewrite Hq. cbn [bindP]. rewrite Hc. cbn zeta.
    unfold toISOString, after_focus, navigate, url_pathname.
    repeat (exec_step; cbn [after_calls calls final outcome app];
            try split_reply);
      repeat (constructor; cbn [on_target]; rewrite ?Z.eqb_refl; try done).
  - pose proof (targetTab_in first others) as Hin.
    rewrite <- Hc in Hin. apply filter_In in Hin as [_ Hf].
    apply andb_true_iff in Hf as [Hid _].
    apply negb_true_iff in Hid. by apply Z.eqb_neq.
Qed.

(** X14.  Once an activation has taken the lock of its key, the 5 s
    callback that releases the key and the 3 s callback that clears the
    global flag are armed when it finishes, however the activation ends;
    and the callback, whenever it fires, leaves the key free, makes no
    host call and touches no other key. *)
Theorem lock_failsafe_is_armed
    (rep : Replies) newTabId ticketUrl s0 settings :
  truthy (extractSubdomain ticketUrl) = true ->
  truthy (extractTicketNumber ticketUrl) = true ->
  key_of ticketUrl ∉ ongoingNavigations s0 ->
  rep 0%nat GetAllSettings = Returned settings ->
  let r := run (quiet rep) 0 (reuseZendeskTab newTabId ticketUrl s0) in
  In (5000, ReleaseNavigationKey (key_of ticketUrl)) (timers (final r))
  /\ In (3000, ReleaseGlobalLock) (timers (final r))
  /\ forall env s,
       let c := run env 0 (fire (ReleaseNavigationKey (key_of ticketUrl)) s) in
       calls c = [] /\ outcome c = Returned tt
       /\ (key_of ticketUrl ∉ ongoingNavigations (final c))
       /\ forall k, k <> key_of ticketUrl ->
            (k ∈ ongoingNavigations (final c) <-> k ∈ ongoingNavigations s).
Proof.
  intros Hsub Hnum Hfree Hset r. subst r. split; [|split].
  - rewrite (queried_run rep newTabId ticketUrl s0 settings) by done.
    unfold toISOString, after_focus, navigate, url_pathname.
    repeat (exec_step; cbn [after_calls calls final outcome];
            try split_reply);
      cbn; rewrite ?in_app_iff; cbn; tauto.
  - rewrite (queried_run rep newTabId ticketUrl s0 settings) by done.
    unfold toISOString, after_focus, navigate, url_pathname.
    repeat (exec_step; cbn [after_calls calls final outcome];
            try split_reply);
      cbn; rewrite ?in_app_iff; cbn; tauto.
  - intros env s. cbn. split; [done|]. split; [done|]. split.
    + apply not_elem_of_difference. right. by apply elem_of_singleton.
    + intros k Hk. rewrite elem_of_difference, elem_of_singleton. tauto.
Qed.

End HandoffMore.

Lemma no_candidate_keeps_lock_witness :
  calls (run (quiet (replies [] false)) 0
           (reuseZendeskTab (B:=reference) 7 ticket_500 tab7_created))
  = [ GetAllSettings; TabsQuery (query_pattern (extractSubdomain ticket_500)) ]
  /\ outcome (run (quiet (replies [] false)) 0
                (reuseZendeskTab (B:=reference) 7 ticket_500 tab7_created))
     = Returned tt
  /\ final (run (quiet (replies [] false)) 0
              (reuseZendeskTab (B:=reference) 7 ticket_500 tab7_created))
     = set_isNavigating false (locked ticket_500 tab7_created)
  /\ key_of ticket_500
     ∈ ongoingNavigations
         (final (run (quiet (replies [] false)) 0
                   (reuseZendeskTab (B:=reference) 7 ticket_500 tab7_created))).
Proof.
  apply (no_candidate_keeps_lock (B:=reference) (replies [] false) 7 ticket_500
           tab7_created {| noReloadNavigation := false |} []).
  - reflexivity.
  - reflexivity.
  - apply not_elem_of_empty.
  - reflexivity.
  - reflexivity.
  - reflexivity.
Defined.

Lemma completed_handoff_restores_locks_witness :
  outcome (run (quiet (replies [acme_ticket_80] false)) 0
             (reuseZendeskTab (B:=reference) 7 ticket_500 tab7_created))
  = Returned tt
  /\ ongoingNavigations
       (final (run (quiet (replies [acme_ticket_80] false)) 0
                 (reuseZendeskTab (B:=reference) 7 ticket_500 tab7_created)))
     = ongoingNavigations tab7_created
  /\ isNavigating
       (final (run (quiet (replies [acme_ticket_80] false)) 0
                 (reuseZendeskTab (B:=reference) 7 ticket_500 tab7_created)))
     = false
  /\ timers
       (final (run (quiet (replies [acme_ticket_80] false)) 0
                 (reuseZendeskTab (B:=reference) 7 ticket_500 tab7_created)))
     = timers tab7_created
       ++ [ (3000, ReleaseGlobalLock);
            (5000, ReleaseNavigationKey (key_of ticket_500));
            (100, CloseDuplicate 7) ]
  /\ recentNewTabs
       (final (run (quiet (replies [acme_ticket_80] false)) 0
                 (reuseZendeskTab (B:=reference) 7 ticket_500 tab7_created)))
     = recentNewTabs tab7_created
  /\ navigationTabs
       (final (run (quiet (replies [acme_ticket_80] false)) 0
                 (reuseZendeskTab (B:=reference) 7 ticket_500 tab7_created)))
     = navigationTabs tab7_created.
Proof.
  apply (completed_handoff_restores_locks (B:=reference)
           (replies [acme_ticket_80] false) 7 ticket_500 tab7_created
           {| noReloadNavigation := false |} acme_ticket_80).
  - by apply focused_on.
  - by vm_compute.
  - left. split; reflexivity.
Defined.

Lemma handoff_acts_on_target_only_witness :
  Forall (fun c => on_target acme_ticket_80 c = true)
    (calls (run (quiet (replies [acme_ticket_80] true)) 0
              (reuseZendeskTab (B:=reference) 7 ticket_500 tab7_created)))
  /\ tab_id acme_ticket_80 <> 7.
Proof.
  apply (handoff_acts_on_target_only (B:=reference)
           (replies [acme_ticket_80] true) 7 ticket_500 tab7_created
           {| noReloadNavigation := true |} acme_ticket_80).
  by apply selected_on.
Defined.

Lemma lock_failsafe_is_armed_witness :
  In (5000, ReleaseNavigationKey (key_of ticket_500))
    (timers
       (final (run (quiet (target_closed [acme_ticket_80])) 0
                 (reuseZendeskTab (B:=reference) 7 ticket_500 tab7_created)))).
Proof.
  apply (lock_failsafe_is_armed (B:=reference) (target_closed [acme_ticket_80])
           7 ticket_500 tab7_created {| noReloadNavigation := false |}).
  - reflexivity.
  - reflexivity.
  - apply not_elem_of_empty.
  - reflexivity.
Defined.

(** X15.  The callback that closes the new tab forgets the tab in both
    tables when the tab is gone already or when it removes it, so that
    the tab is never reported recent afterwards; when the removal is
    rejected, the rejection escapes the callback and the tab stays
    tracked as it was. *)
Theorem close_duplicate_forgets_tab (rep : Replies) newTabId s :
  let c := run (quiet rep) 0 (fire (CloseDuplicate newTabId) s) in
  (forall e, rep 0%nat (TabsGet newTabId) = Thrown e ->
     final c = clearNavigationTab newTabId s)
  /\ (forall t, rep 0%nat (TabsGet newTabId) = Returned t ->
        tab_id t <> newTabId ->
        final c = clearNavigationTab newTabId s)
  /\ (forall t, rep 0%nat (TabsGet newTabId) = Returned t ->
        tab_id t = newTabId ->
        (rep 1%nat (TabsRemove newTabId) = Returned tt ->
         outcome c = Returned tt
         /\ final c = clearNavigationTab newTabId s
         /\ forall now, fst (isTabRecentlyNew newTabId now (final c)) = false)
        /\ (forall e, rep 1%nat (TabsRemove newTabId) = Thrown e ->
              outcome c = Thrown e /\ final c = s)).
Proof.
  cbn zeta. unfold fire, tabExists. exec_step. split; [|split].
  - intros e ->. by exec_step.
  - intros t -> Hne. exec_step. apply Z.eqb_neq in Hne. rewrite Hne.
    by exec_step.
  - intros t -> Heq. exec_step. apply Z.eqb_eq in Heq. rewrite Heq. exec_step.
    split.
    + intros ->. exec_step. cbn [after_calls calls final outcome].
      split; [done|]. split; [done|]. intros now.
      unfold isTabRecentlyNew.
      destruct (decide (newTabId ∈ navigationTabs (clearNavigationTab newTabId s)));
        [done|].
      cbn. by rewrite lookup_delete_eq.
    + intros e ->. by exec_step.
Qed.

Lemma close_duplicate_forgets_tab_witness :
  outcome (run (quiet (replies [] false)) 0
             (fire (CloseDuplicate 7) tab7_created)) = Returned tt
  /\ final (run (quiet (replies [] false)) 0
              (fire (CloseDuplicate 7) tab7_created))
     = clearNavigationTab 7 tab7_created
  /\ forall now,
       fst (isTabRecentlyNew 7 now
              (final (run (quiet (replies [] false)) 0
                        (fire (CloseDuplicate 7) tab7_created)))) = false.
Proof.
  apply (close_duplicate_forgets_tab (replies [] false) 7 tab7_created)
    with (t := {| tab_id := 7; tab_url := ""; tab_windowId := 1;
                  tab_lastAccessed := None |}); reflexivity.
Defined.

(** ** More on the dispatcher *)

Lemma not_ticket_no_number u :
  isTicketUrl u = false -> extractTicketNumber u = None.
Proof.
  intros Hn. destruct (extractTicketNumber u) as [n|] eqn:E; [|done].
  pose proof (extractTicketNumber_inv _ _ E) as [Hne _].
  assert (truthy (extractTicketNumber u) = true) as Ht
    by (rewrite E; by destruct n).
  apply ticket_number_is_ticket_url in Ht. congruence.
Qed.

Lemma teams_not_ticket u : test TEAMS_SAFEURL u = true -> isTicketUrl u = false.
Proof.
  intros Ht. destruct (isTicketUrl u) eqn:E; [|done].
  destruct (isTicketUrl_parts _ E) as (area & sub & k & d & _ & Hr).
  destruct (route_parts_inv _ _ _ _ _ Hr) as (_ & _ & _ & rest & Hh).
  apply host_no_teams in Hh. congruence.
Qed.

Lemma ticket_not_teams u : isTicketUrl u = true -> test TEAMS_SAFEURL u = false.
Proof.
  intros E. destruct (test TEAMS_SAFEURL u) eqn:Ht; [|done].
  apply teams_not_ticket in Ht. congruence.
Qed.

Section DispatchMore.
Context {B : Builtins}.

(** X16.  The dispatcher does nothing, no call and no change of state,
    on an event that arrives while the global flag is set, on an event
    of a sub-frame, and on a URL that is neither a ticket URL nor a
    Teams safelink. *)
Theorem unrelated_event_is_ignored now details s :
  isNavigating s = true
  \/ nd_frameId details <> 0
  \/ (isTicketUrl (nd_url details) = false
      /\ test TEAMS_SAFEURL (nd_url details) = false) ->
  handleNavigation now details s = Done s (Returned tt).
Proof.
  intros H. unfold handleNavigation. exec_step.
  destruct (isNavigating s) eqn:En; [done|].
  destruct (nd_frameId details =? 0) eqn:Ef; [|done]. cbn [negb].
  destruct H as [?|[Hf|[Hn Ht]]]; [done| |].
  { by apply Z.eqb_eq in Ef. }
  destruct (early_loop (nd_url details) s); [done|].
  by rewrite Ht, Hn.
Qed.

(** X17.  A safelink from which no URL of the plain ticket route is
    recovered (no [url] parameter, a parameter that does not decode, or
    one that decodes to something else) is ignored: no call, no change
    of state. *)
Theorem safelink_without_ticket_is_ignored now details s :
  test TEAMS_SAFEURL (nd_url details) = true ->
  (forall z, extractZendeskUrlFromTeams (nd_url details) = Some z ->
             test TICKET_ROUTE z = false) ->
  handleNavigation now details s = Done s (Returned tt).
Proof.
  intros Ht Hz. unfold handleNavigation. exec_step.
  destruct (isNavigating s); [done|].
  destruct (negb (nd_frameId details =? 0)); [done|].
  destruct (early_loop (nd_url details) s); [done|].
  rewrite Ht, (teams_not_ticket _ Ht).
  destruct (extractZendeskUrlFromTeams (nd_url details)) as [z|] eqn:E; [|done].
  rewrite (Hz z eq_refl). by rewrite andb_false_r.
Qed.

(** X18.  Only a recent tab starts a hand-off: on a ticket URL reached
    by a tab that the tracker does not report recent (never marked,
    marked more than 5 s ago, or registered as a navigation target) the
    dispatcher makes no host call and returns; the state changes at most
    by the eviction of the tab's expired entry. *)
Theorem only_recent_tab_starts_handoff env now tabId url frameId s :
  isTicketUrl url = true ->
  fst (isTabRecentlyNew tabId now s) = false ->
  let r := run env 0
             (handleNavigation now
                {| nd_tabId := tabId; nd_url := url; nd_frameId := frameId |} s) in
  calls r = [] /\ outcome r = Returned tt
  /\ (final r = s \/ final r = snd (isTabRecentlyNew tabId now s)).
Proof.
  intros Hticket Hold r. subst r.
  rewrite handle_ticket_url by (try done; by apply ticket_not_teams).
  destruct (isNavigating s); [cbn; auto|].
  destruct (negb (frameId =? 0)); [cbn; auto|].
  unfold processZendeskNavigation. exec_step.
  destruct (decide (_ ∈ ongoingNavigations s)); [cbn; auto|].
  unfold call_sync. cbn [bind bindP]. rewrite Hold. cbn. auto.
Qed.

(** X19.  A main-frame event on a ticket URL, reached by a tab that the
    tracker reports recent while no hand-off is running and the key of
    the ticket is free, starts the hand-off: the dispatcher goes on
    exactly as [reuseZendeskTab] on that tab and URL, in the same
    state. *)
Theorem recent_tab_starts_handoff now tabId url s :
  isTicketUrl url = true ->
  isNavigating s = false ->
  key_of url ∉ ongoingNavigations s ->
  fst (isTabRecentlyNew tabId now s) = true ->
  handleNavigation now {| nd_tabId := tabId; nd_url := url; nd_frameId := 0 |} s
  = reuseZendeskTab tabId url s.
Proof.
  intros Hticket Hidle Hfree Hnew.
  rewrite handle_ticket_url by (try done; by apply ticket_not_teams).
  rewrite Hidle. cbn [Z.eqb negb].
  unfold processZendeskNavigation. exec_step. fold (key_of url).
  destruct (decide (key_of url ∈ ongoingNavigations s)); [done|].
  unfold call_sync. cbn [bind bindP]. rewrite Hnew.
  by rewrite isTabRecentlyNew_true.
Qed.

(** X20.  A tab registered by the navigation-target listener (with a
    non-zero id) never starts a hand-off while it is registered: on a
    ticket URL the dispatcher makes no host call and leaves the state as
    it is, whether or not the tab is also marked new, and however short
    a time ago. *)
Theorem navigation_target_never_starts_handoff
    env now t0 details url frameId s :
  td_tabId details <> 0 ->
  isTicketUrl url = true ->
  let s' := onCreated (td_tabId details) t0 (onCreatedNavigationTarget details s) in
  let r := run env 0
             (handleNavigation now
                {| nd_tabId := td_tabId details; nd_url := url;
                   nd_frameId := frameId |} s') in
  calls r = [] /\ outcome r = Returned tt /\ final r = s'.
Proof.
  intros Hid Hticket s' r. subst r.
  assert (isTabRecentlyNew (td_tabId details) now s' = (false, s')) as Hq.
  { unfold isTabRecentlyNew.
    destruct (decide (td_tabId details ∈ navigationTabs s')) as [_|Hout];
      [done|].
    exfalso. apply Hout. subst s'.
    unfold onCreated, onCreatedNavigationTarget.
    apply Z.eqb_neq in Hid. rewrite Hid. cbn [negb].
    destruct (intercepts details s); cbn;
      apply elem_of_union; left; by apply elem_of_singleton. }
  rewrite handle_ticket_url by (try done; by apply ticket_not_teams).
  destruct (isNavigating s'); [done|].
  destruct (negb (frameId =? 0)); [done|].
  unfold processZendeskNavigation. exec_step.
  destruct (decide (_ ∈ ongoingNavigations s')); [done|].
  unfold call_sync. cbn [bind bindP]. by rewrite Hq.
Qed.

(** X21.  [tabExists] never throws and asks the host once: it answers
    [true] exactly when [chrome.tabs.get] resolves with a tab of the id
    asked for, and leaves the state as the event loop hands it back. *)
Theorem tabExists_never_throws env tabId s :
  let r := run env 0 (tabExists tabId s) in
  calls r = [TabsGet tabId]
  /\ final r = interfere env 0%nat s
  /\ exists b, outcome r = Returned b
      /\ (b = true <->
          exists t, reply env 0%nat (TabsGet tabId) = Returned t
                    /\ tab_id t = tabId).
Proof.
  cbn zeta. unfold tabExists.
  cbn [bindP catchP run bind try_catch await ret].
  destruct (reply env 0%nat (TabsGet tabId)) as [t|e];
    cbn [bindP catchP run bind try_catch await ret after_calls calls final
         outcome app].
  - split; [done|]. split; [done|]. exists (tab_id t =? tabId). split; [done|].
    rewrite Z.eqb_eq. split; [eauto|]. by intros (t' & [= <-] & ?).
  - split; [done|]. split; [done|]. exists false. split; [done|].
    split; [done|]. by intros (t' & [=] & _).
Qed.

End DispatchMore.

Lemma navigation_target_never_starts_handoff_witness :
  calls (run (quiet (replies [acme_ticket_80] false)) 0
           (handleNavigation (B:=reference) 1002
              {| nd_tabId := 7; nd_url := ticket_500; nd_frameId := 0 |}
              (onCreated 7 1001
                 (onCreatedNavigationTarget
                    {| td_sourceTabId := 3; td_tabId := 7; td_url := ticket_500 |}
                    initial))))
  = []
  /\ outcome (run (quiet (replies [acme_ticket_80] false)) 0
                (handleNavigation (B:=reference) 1002
                   {| nd_tabId := 7; nd_url := ticket_500; nd_frameId := 0 |}
                   (onCreated 7 1001
                      (onCreatedNavigationTarget
                         {| td_sourceTabId := 3; td_tabId := 7;
                            td_url := ticket_500 |}
                         initial))))
     = Returned tt
  /\ final (run (quiet (replies [acme_ticket_80] false)) 0
              (handleNavigation (B:=reference) 1002
                 {| nd_tabId := 7; nd_url := ticket_500; nd_frameId := 0 |}
                 (onCreated 7 1001
                    (onCreatedNavigationTarget
                       {| td_sourceTabId := 3; td_tabId := 7;
                          td_url := ticket_500 |}
                       initial))))
     = onCreated 7 1001
         (onCreatedNavigationTarget
            {| td_sourceTabId := 3; td_tabId := 7; td_url := ticket_500 |}
            initial).
Proof.
  apply (navigation_target_never_starts_handoff (B:=reference)
           (quiet (replies [acme_ticket_80] false)) 1002 1001
           {| td_sourceTabId := 3; td_tabId := 7; td_url := ticket_500 |}
           ticket_500 0 initial).
  - cbn. lia.
  - reflexivity.
Defined.

Lemma unrelated_event_is_ignored_witness :
  handleNavigation (B:=reference) 2000 (navigation 7 "https://example.org/a")
    tab7_created
  = Done tab7_created (Returned tt).
Proof.
  apply (unrelated_event_is_ignored (B:=reference) 2000
           (navigation 7 "https://example.org/a") tab7_created).
  right. right. split; reflexivity.
Defined.

Lemma safelink_without_ticket_is_ignored_witness :
  handleNavigation (B:=reference) 2000
    (navigation 7 (safelink "https%3A%2F%2Fexample.org%2Fa")) tab7_created
  = Done tab7_created (Returned tt).
Proof.
  apply (safelink_without_ticket_is_ignored (B:=reference) 2000
           (navigation 7 (safelink "https%3A%2F%2Fexample.org%2Fa"))
           tab7_created).
  - reflexivity.
  - intros z Hz. vm_compute in Hz. injection Hz as <-. reflexivity.
Defined.

Lemma only_recent_tab_starts_handoff_witness :
  calls (run (quiet (replies [acme_ticket_80] false)) 0
           (handleNavigation (B:=reference) 2000
              {| nd_tabId := 9; nd_url := ticket_500; nd_frameId := 0 |}
              tab7_created))
  = [].
Proof.
  apply (only_recent_tab_starts_handoff (B:=reference)
           (quiet (replies [acme_ticket_80] false)) 2000 9 ticket_500 0
           tab7_created); reflexivity.
Defined.

Lemma recent_tab_starts_handoff_witness :
  handleNavigation (B:=reference) 2000
    {| nd_tabId := 7; nd_url := ticket_500; nd_frameId := 0 |} tab7_created
  = reuseZendeskTab (B:=reference) 7 ticket_500 tab7_created.
Proof.
  apply (recent_tab_starts_handoff (B:=reference) 2000 7 ticket_500 tab7_created).
  - reflexivity.
  - reflexivity.
  - apply not_elem_of_empty.
  - reflexivity.
Defined.

(** ** The sweeper *)

Lemma sweep_missing_run (rep : Replies) order n s :
  let r := run (quiet rep) n (sweep_missing order s) in
  calls r = map TabsGet order
  /\ outcome r = Returned tt
  /\ (forall i, i ∈ navigationTabs (final r)
                <-> i ∈ navigationTabs s /\ i ∉ rejected rep n order)
  /\ (forall i ts, recentNewTabs (final r) !! i = Some ts
                   <-> recentNewTabs s !! i = Some ts
                       /\ i ∉ rejected rep n order)
  /\ ongoingNavigations (final r) = ongoingNavigations s
  /\ isNavigating (final r) = isNavigating s
  /\ timers (final r) = timers s.
Proof.
  cbn zeta. revert n s. induction order as [|tabId rest IH]; intros n s.
  - cbn. split; [done|]. split; [done|].
    split; [|split; [|done]].
    + intros i. rewrite elem_of_nil. tauto.
    + intros i ts. rewrite elem_of_nil. tauto.
  - cbn [sweep_missing rejected map]. exec_step.
    destruct (rep n (TabsGet tabId)) as [t|e]; exec_step;
      cbn [after_calls calls final outcome app].
    + destruct (IH (S n) s) as (Hc & Ho & Hn & Hr & H1 & H2 & H3).
      rewrite Hc. done.
    + destruct (IH (S n) (clearNavigationTab tabId s))
        as (Hc & Ho & Hn & Hr & H1 & H2 & H3).
      rewrite Hc. split; [done|]. split; [done|].
      split; [|split; [|done]].
      * intros i. rewrite Hn, not_elem_of_cons. cbn.
        rewrite elem_of_difference, elem_of_singleton. tauto.
      * intros i ts. rewrite Hr, not_elem_of_cons. cbn.
        rewrite lookup_delete_Some. split.
        -- intros [[? ?] ?]. done.
        -- intros [? [? ?]]. done.
Qed.

(** X22.  One round of the sweeper, with no other handler running
    meanwhile, never throws and asks the host once for each navigation
    tab that comes up.  A creation entry survives the round exactly when
    it is at most 10 s old and its tab is not rejected by the host; a
    navigation tab survives exactly when it has no creation entry older
    than 10 s and is not rejected.  The locks, the global flag and the
    timers are not touched. *)
Theorem sweeper_forgets_old_and_missing (rep : Replies) now order s :
  let r := run (quiet rep) 0 (sweeper now order s) in
  calls r = map TabsGet order
  /\ outcome r = Returned tt
  /\ (forall i, i ∈ navigationTabs (final r)
        <-> i ∈ navigationTabs s
            /\ (forall ts, recentNewTabs s !! i = Some ts ->
                           now - ts <= NEW_TAB_WINDOW_MS * 2)
            /\ i ∉ rejected rep 0 order)
  /\ (forall i ts, recentNewTabs (final r) !! i = Some ts
        <-> recentNewTabs s !! i = Some ts
            /\ now - ts <= NEW_TAB_WINDOW_MS * 2
            /\ i ∉ rejected rep 0 order)
  /\ ongoingNavigations (final r) = ongoingNavigations s
  /\ isNavigating (final r) = isNavigating s
  /\ timers (final r) = timers s.
Proof.
  cbn zeta. unfold sweeper. cbn [bind modify bindP].
  destruct (sweep_missing_run rep order 0 (sweep_expired now s))
    as (Hc & Ho & Hn & Hr & H1 & H2 & H3).
  split; [done|]. split; [done|]. split; [|split; [|done]].
  - intros i. rewrite Hn. cbn [sweep_expired set_recentNewTabs
      set_navigationTabs navigationTabs].
    rewrite elem_of_difference, elem_of_dom.
    assert ((forall ts, recentNewTabs s !! i = Some ts ->
                        now - ts <= NEW_TAB_WINDOW_MS * 2)
            <-> ~ is_Some
                  (filter (fun e => expired now (snd e) = true)
                     (recentNewTabs s) !! i)) as ->; [|tauto].
    split.
    + intros Hyoung [ts [Hts Hexp]%map_lookup_filter_Some].
      specialize (Hyoung ts Hts). unfold expired in Hexp. cbn in Hexp.
      rewrite Z.gtb_ltb in Hexp. apply Z.ltb_lt in Hexp. lia.
    + intros Hno ts Hts.
      destruct (expired now ts) eqn:E.
      * exfalso. apply Hno. exists ts. by apply map_lookup_filter_Some.
      * unfold expired in E. rewrite Z.gtb_ltb in E. apply Z.ltb_ge in E. lia.
  - intros i ts. rewrite Hr. cbn [sweep_expired set_recentNewTabs
      set_navigationTabs recentNewTabs].
    rewrite map_lookup_filter_Some. cbn [snd]. unfold expired.
    rewrite Z.gtb_ltb, Z.ltb_ge. tauto.
Qed.

(** ** [focusTab] *)

(** X23.  [focusTab] never throws, whatever the host answers; it asks
    for the window first and activates the tab only when the window
    update has resolved. *)
Theorem focusTab_never_throws env tabId windowId s :
  let r := run env 0 (focusTab tabId windowId s) in
  outcome r = Returned tt
  /\ ((exists e, reply env 0%nat (WindowsFocus windowId) = Thrown e)
      /\ calls r = [WindowsFocus windowId]
      \/ reply env 0%nat (WindowsFocus windowId) = Returned tt
         /\ calls r = [WindowsFocus windowId; TabsActivate tabId]).
Proof.
  cbn zeta. unfold focusTab.
  cbn [bindP catchP run bind try_catch await ret].
  destruct (reply env 0%nat (WindowsFocus windowId)) as [[]|e];
    cbn [bindP catchP run bind try_catch await ret after_calls calls final
         outcome app].
  - destruct (reply env 1%nat (TabsActivate tabId)) as [[]|e];
      cbn [bindP catchP run bind try_catch await ret after_calls calls final
           outcome app]; (split; [done|]); right; done.
  - split; [done|]. left. eauto.
Qed.

(** ** [debugLogger] *)

Lemma log_bounded now args l :
  (length (DebugLogger.logs l) <= DebugLogger.maxLogs)%nat ->
  (length (DebugLogger.logs (DebugLogger.log now args l))
   <= DebugLogger.maxLogs)%nat.
Proof.
  intros Hl. unfold DebugLogger.log.
  destruct (DebugLogger.debugEnabled l); [|done]. cbn [negb DebugLogger.logs].
  destruct (Nat.ltb_spec DebugLogger.maxLogs
              (length (DebugLogger.logs l ++ [ {| DebugLogger.timestamp := now;
                 DebugLogger.message := DebugLogger.join " " args |} ])))
    as [Hgt|Hle]; [|done].
  destruct (DebugLogger.logs l) as [|x xs]; cbn [app tail length] in *; [lia|].
  rewrite length_app. cbn [length]. lia.
Qed.

(** X24.  The log never holds more than [maxLogs] (500) entries:
    starting within the bound, every sequence of [log], [error] and
    [clearLogs] calls stays within it. *)
Theorem log_buffer_is_bounded ops l :
  (length (DebugLogger.logs l) <= DebugLogger.maxLogs)%nat ->
  (length (DebugLogger.logs (fold_left DebugLogger.perform ops l))
   <= DebugLogger.maxLogs)%nat.
Proof.
  revert l. induction ops as [|op ops IH]; intros l Hl; [done|].
  cbn [fold_left]. apply IH.
  destruct op as [now args|now args|now]; cbn [DebugLogger.perform].
  - by apply log_bounded.
  - by apply log_bounded.
  - unfold DebugLogger.clearLogs. cbn [DebugLogger.debugEnabled].
    destruct (DebugLogger.debugEnabled l).
    + apply log_bounded. cbn. unfold DebugLogger.maxLogs. lia.
    + cbn. unfold DebugLogger.maxLogs. lia.
Qed.

Lemma log_buffer_is_bounded_witness :
  (length
     (DebugLogger.logs
        (fold_left DebugLogger.perform
           [DebugLogger.OpLog 1 ["Tab"; "7"]; DebugLogger.OpClear 2;
            DebugLogger.OpError 3 ["gone"]]
           {| DebugLogger.logs := []; DebugLogger.debugEnabled := true |}))
   <= DebugLogger.maxLogs)%nat.
Proof.
  apply (log_buffer_is_bounded
           [DebugLogger.OpLog 1 ["Tab"; "7"]; DebugLogger.OpClear 2;
            DebugLogger.OpError 3 ["gone"]]
           {| DebugLogger.logs := []; DebugLogger.debugEnabled := true |}).
  cbn. unfold DebugLogger.maxLogs. lia.
Defined.

(** X25.  An enabled logger keeps the most recent entries: [log]
    appends the new entry, whose message is the arguments joined by
    spaces, and when the log is full it drops the oldest entry to make
    room. *)
Theorem log_keeps_most_recent now args l :
  DebugLogger.debugEnabled l = true ->
  (length (DebugLogger.logs l) <= DebugLogger.maxLogs)%nat ->
  let e := {| DebugLogger.timestamp := now;
              DebugLogger.message := DebugLogger.join " " args |} in
  DebugLogger.logs (DebugLogger.log now args l)
  = (if (length (DebugLogger.logs l) <? DebugLogger.maxLogs)%nat
     then DebugLogger.logs l else tail (DebugLogger.logs l)) ++ [e]
  /\ last (DebugLogger.getLogs (DebugLogger.log now args l)) = Some e.
Proof.
  intros Hen Hl e.
  assert (DebugLogger.logs (DebugLogger.log now args l)
          = (if (length (DebugLogger.logs l) <? DebugLogger.maxLogs)%nat
             then DebugLogger.logs l else tail (DebugLogger.logs l)) ++ [e])
    as Heq.
  { unfold DebugLogger.log. rewrite Hen. cbn [negb DebugLogger.logs]. fold e.
    rewrite length_app. cbn [length].
    destruct (Nat.ltb_spec DebugLogger.maxLogs (length (DebugLogger.logs l) + 1));
      destruct (Nat.ltb_spec (length (DebugLogger.logs l)) DebugLogger.maxLogs);
      try lia; try done.
    destruct (DebugLogger.logs l) as [|x xs]; [|done].
    cbn in *. unfold DebugLogger.maxLogs in *. lia. }
  split; [exact Heq|].
  unfold DebugLogger.getLogs. rewrite Heq. apply last_snoc.
Qed.

Lemma log_keeps_most_recent_witness :
  DebugLogger.logs
    (DebugLogger.log 5 ["Marked"; "tab"; "7"]
       {| DebugLogger.logs := []; DebugLogger.debugEnabled := true |})
  = [] ++ [ {| DebugLogger.timestamp := 5;
               DebugLogger.message := "Marked tab 7" |} ]
  /\ last (DebugLogger.getLogs
             (DebugLogger.log 5 ["Marked"; "tab"; "7"]
                {| DebugLogger.logs := []; DebugLogger.debugEnabled := true |}))
     = Some {| DebugLogger.timestamp := 5;
               DebugLogger.message := "Marked tab 7" |}.
Proof.
  apply (log_keeps_most_recent 5 ["Marked"; "tab"; "7"]
           {| DebugLogger.logs := []; DebugLogger.debugEnabled := true |}).
  - reflexivity.
  - cbn. unfold DebugLogger.maxLogs. lia.
Defined.

(** X26.  A disabled logger records nothing: [log] and [error] leave it
    as it is, and after any sequence of calls its log is the one it had
    or, once [clearLogs] was called, empty. *)
Theorem disabled_logger_records_nothing ops l :
  DebugLogger.debugEnabled l = false ->
  let l' := fold_left DebugLogger.perform ops l in
  DebugLogger.debugEnabled l' = false
  /\ (DebugLogger.logs l' = DebugLogger.logs l \/ DebugLogger.logs l' = []).
Proof.
  cbn zeta. revert l. induction ops as [|op ops IH]; intros l Hoff; [auto|].
  cbn [fold_left].
  assert (DebugLogger.debugEnabled (DebugLogger.perform l op) = false
          /\ (DebugLogger.logs (DebugLogger.perform l op) = DebugLogger.logs l
              \/ DebugLogger.logs (DebugLogger.perform l op) = []))
    as [Hoff' Hlogs].
  { destruct op as [now args|now args|now];
      cbn [DebugLogger.perform];
      unfold DebugLogger.error, DebugLogger.clearLogs, DebugLogger.log;
      cbn [DebugLogger.debugEnabled]; rewrite Hoff; cbn; auto. }
  destruct (IH _ Hoff') as [H1 H2]. split; [done|].
  destruct H2 as [-> | ->]; auto.
Qed.

Lemma disabled_logger_records_nothing_witness :
  DebugLogger.debugEnabled
    (fold_left DebugLogger.perform
       [DebugLogger.OpLog 1 ["Tab"; "7"]; DebugLogger.OpError 3 ["gone"]]
       {| DebugLogger.logs := []; DebugLogger.debugEnabled := false |})
  = false.
Proof.
  apply (disabled_logger_records_nothing
           [DebugLogger.OpLog 1 ["Tab"; "7"]; DebugLogger.OpError 3 ["gone"]]
           {| DebugLogger.logs := []; DebugLogger.debugEnabled := false |}).
  reflexivity.
Defined.

(** ** The tracker of the earlier script *)

(** X27.  In the earlier script ([unnamed/part_000]) [markTabNew] also
    registers the tab as a navigation tab, and a registered tab is
    reported recent at every time: the 5 s window does not decide for
    it.  A round of the sweeper keeps the tab registered, with its
    entry, when the entry is at most 10 s old and the host does not
    reject the tab; otherwise the round forgets the tab, which is then
    reported not recent, as it is after [clearNavigationTab]. *)
Theorem legacy_marked_tab_is_recent_until_forgotten
    (rep : Replies) tabId t0 s :
  tabId ∈ navigationTabs s ->
  recentNewTabs s !! tabId = Some t0 ->
  (forall now, Legacy.isTabRecentlyNew tabId now s = (true, s))
  /\ (forall t order,
        let s' := final (run (quiet rep) 0 (Legacy.sweeper t order s)) in
        (t - t0 <= Legacy.NEW_TAB_WINDOW_MS * 2 ->
         tabId ∉ rejected rep 0 order ->
         tabId ∈ navigationTabs s' /\ recentNewTabs s' !! tabId = Some t0
         /\ forall now, Legacy.isTabRecentlyNew tabId now s' = (true, s'))
        /\ (t - t0 > Legacy.NEW_TAB_WINDOW_MS * 2
            \/ tabId ∈ rejected rep 0 order ->
            forall now, Legacy.isTabRecentlyNew tabId now s' = (false, s')))
  /\ (forall now,
        Legacy.isTabRecentlyNew tabId now (Legacy.clearNavigationTab tabId s)
        = (false, Legacy.clearNavigationTab tabId s))
  /\ forall s0,
       tabId ∈ navigationTabs (Legacy.markTabNew tabId t0 s0)
       /\ recentNewTabs (Legacy.markTabNew tabId t0 s0) !! tabId = Some t0.
Proof.
  intros Hin Hts. split; [|split; [|split]].
  - intros now. unfold Legacy.isTabRecentlyNew.
    by destruct (decide (tabId ∈ navigationTabs s)).
  - intros t order. cbn zeta.
    unfold Legacy.sweeper, sweeper. cbn [bind modify bindP].
    destruct (sweep_missing_run rep order 0 (sweep_expired t s))
      as (_ & _ & Hn & Hr & _).
    set (s' := final (run (quiet rep) 0
                        (sweep_missing order (sweep_expired t s)))) in *.
    assert (tabId ∈ navigationTabs (sweep_expired t s)
            <-> expired t t0 = false) as Hn1.
    { cbn [sweep_expired set_recentNewTabs set_navigationTabs navigationTabs].
      rewrite elem_of_difference, elem_of_dom. split.
      - intros [_ Hno]. destruct (expired t t0) eqn:E; [|done].
        exfalso. apply Hno. exists t0. by apply map_lookup_filter_Some.
      - intros E. split; [done|].
        intros [ts [Hts' Hexp]%map_lookup_filter_Some].
        cbn in Hexp. congruence. }
    assert (forall ts, recentNewTabs (sweep_expired t s) !! tabId = Some ts
                       <-> ts = t0 /\ expired t t0 = false) as Hr1.
    { intros ts.
      cbn [sweep_expired set_recentNewTabs set_navigationTabs recentNewTabs].
      rewrite map_lookup_filter_Some. cbn [snd]. split.
      - intros [Hts' E]. split; congruence.
      - intros [-> E]. done. }
    assert (expired t t0 = false <-> t - t0 <= Legacy.NEW_TAB_WINDOW_MS * 2)
      as Hexp.
    { unfold expired, Legacy.NEW_TAB_WINDOW_MS, NEW_TAB_WINDOW_MS.
      rewrite Z.gtb_ltb, Z.ltb_ge. lia. }
    split.
    + intros Hyoung Hok. apply Hexp in Hyoung.
      assert (tabId ∈ navigationTabs s') as Hin'.
      { apply Hn. split; [by apply Hn1|done]. }
      split; [done|]. split.
      * apply Hr. split; [by apply Hr1|done].
      * intros now. unfold Legacy.isTabRecentlyNew.
        by destruct (decide (tabId ∈ navigationTabs s')).
    + intros Hgone now. unfold Legacy.isTabRecentlyNew.
      destruct (decide (tabId ∈ navigationTabs s')) as [Hin'|_].
      * exfalso. apply Hn in Hin' as [Hin' Hok]. apply Hn1, Hexp in Hin'.
        destruct Hgone as [?|?]; [lia|done].
      * destruct (recentNewTabs s' !! tabId) as [ts|] eqn:E; [|done].
        exfalso. apply Hr in E as [E Hok]. apply Hr1 in E as [_ E].
        apply Hexp in E. destruct Hgone as [?|?]; [lia|done].
  - intros now. unfold Legacy.isTabRecentlyNew.
    destruct (decide (tabId ∈ navigationTabs (Legacy.clearNavigationTab tabId s)))
      as [Hin'|_].
    + exfalso. cbn in Hin'. apply elem_of_difference in Hin' as [_ Hin'].
      apply Hin'. by apply elem_of_singleton.
    + cbn. by rewrite lookup_delete_eq.
  - intros s0. split.
    + cbn. apply elem_of_union. left. by apply elem_of_singleton.
    + cbn. by rewrite lookup_insert_eq.
Qed.

Lemma legacy_marked_tab_is_recent_until_forgotten_witness :
  (forall now,
     Legacy.isTabRecentlyNew 7 now (Legacy.markTabNew 7 1000 initial)
     = (true, Legacy.markTabNew 7 1000 initial))
  /\ (forall now,
        Legacy.isTabRecentlyNew 7 now
          (final (run (quiet (replies [] false)) 0
                    (Legacy.sweeper 8000 [7] (Legacy.markTabNew 7 1000 initial))))
        = (true,
           final (run (quiet (replies [] false)) 0
                    (Legacy.sweeper 8000 [7] (Legacy.markTabNew 7 1000 initial)))))
  /\ (forall now,
        Legacy.isTabRecentlyNew 7 now
          (final (run (quiet (replies [] false)) 0
                    (Legacy.sweeper 12000 [7] (Legacy.markTabNew 7 1000 initial))))
        = (false,
           final (run (quiet (replies [] false)) 0
                    (Legacy.sweeper 12000 [7]
                       (Legacy.markTabNew 7 1000 initial))))).
Proof.
  destruct (legacy_marked_tab_is_recent_until_forgotten (replies [] false)
              7 1000 (Legacy.markTabNew 7 1000 initial))
    as (H1 & H2 & _).
  - cbn. apply elem_of_union. left. by apply elem_of_singleton.
  - reflexivity.
  - split; [exact H1|]. split.
    + apply (H2 8000 [7]).
      * unfold Legacy.NEW_TAB_WINDOW_MS. lia.
      * cbn. apply not_elem_of_nil.
    + apply (H2 12000 [7]). left. unfold Legacy.NEW_TAB_WINDOW_MS. lia.
Defined.
